(** * Multi-model authentication backend (app/backends.py)

    A shallow embedding of [MultiModelBackend]: the credential search of
    [authenticate], the session-tagged re-hydration of [get_user], and the
    group permission computation with its per-instance cache.

    Every ORM query the backend issues is recorded in a log, so that
    statements such as "no store is consulted" or "only that kind's table is
    looked up" are statements about the value the functions return. *)

From Stdlib Require Import ZArith Ascii String.
From Stdlib Require Import Floats.SpecFloat.
From stdpp Require Import base option list strings gmap.

Local Open Scope Z_scope.

(** The four model classes: Django's [User] (the administrators) and the
    application's [Staff], [Parent] and [Student]. *)
Inductive Model := User | Staff | Parent | Student.

(** The exceptions that occur in the module. Each model class has its own
    [DoesNotExist] and [MultipleObjectsReturned]; neither is a subclass of
    the other. [TypeError], [ValueError] and [OverflowError] are the ones
    [int()] raises on the built-in types, each standing for its subclasses
    too; [OtherException] stands for an exception class outside all of
    these, by name. No class listed is a subclass of another. *)
Inductive Exception :=
  | DoesNotExist (m : Model)
  | MultipleObjectsReturned (m : Model)
  | TypeError
  | ValueError
  | OverflowError
  | OtherException (name : string).

(** How a call ends: with a value, or with an exception. *)
Inductive Result (A : Type) :=
  | Return (a : A)
  | Raise (e : Exception).
Arguments Return {A} a.
Arguments Raise {A} e.

(** ** Python values reaching the backend *)

(** The values [get_user] and the permission methods can be handed: [None],
    a [bool], an [int], a [float] (an IEEE 754 value: zero, infinite, NaN or
    finite), a [str], or an object of any other type. Of such an object the
    backend uses nothing but its conversion by [int()], so it is given by
    how that conversion ends: the integer its [__int__], [__index__] or
    [__trunc__] yields, or the exception raised ([TypeError] when the type
    has no conversion, as for a list or a dict). *)
Inductive PyVal :=
  | PyNone
  | PyBool (b : bool)
  | PyInt (n : Z)
  | PyFloat (x : spec_float)
  | PyStr (s : string)
  | PyObject (conversion : Result Z).

#[global] Instance Model_eq_dec : EqDecision Model.
Proof. solve_decision. Defined.

#[global] Instance Exception_eq_dec : EqDecision Exception.
Proof. solve_decision. Defined.

(** ** The identity tables *)

(** One row of an identity table. [email] and [phone] are nullable columns
    ([None] is SQL NULL; the admin table has no phone, its rows carry
    [None]). Secret verification is the opaque capability each record
    exposes, [check_password]. *)
Record Row := {
  pk : Z;
  email : option string;
  phone : option string;
  is_active : bool;
  check_password : string → bool;
}.

(** A group and the (app_label, codename) pairs of the permissions it
    grants, as [values_list("content_type__app_label", "codename")] yields
    them. *)
Record Group := {
  group_pk : Z;
  permissions : list (string * string);
}.

(** The database. Each table lists its rows in the order the model's default
    query uses, which is the order [first()] picks from. [groups_all m i] is
    the result of [user_obj.groups.all()] for the row [i] of table [m]. *)
Record Database := {
  User_objects : list Row;
  Staff_objects : list Row;
  Parent_objects : list Row;
  Student_objects : list Row;
  groups_all : Model → Z → list Group;
}.

Definition objects (db : Database) (m : Model) : list Row :=
  match m with
  | User => User_objects db
  | Staff => Staff_objects db
  | Parent => Parent_objects db
  | Student => Student_objects db
  end.

(** ** Model instances *)

(** A Python object built from a row. [_group_perm_cache] is the attribute
    [get_group_permissions] adds on first use: [None] while the object has
    no such attribute. *)
Record Instance := {
  cls : Model;
  fields : Row;
  is_anonymous : bool;
  _group_perm_cache : option (gset string);
}.

(** A freshly loaded instance: no cache attribute, and not anonymous. *)
Definition from_db (m : Model) (r : Row) : Instance :=
  {| cls := m; fields := r; is_anonymous := false; _group_perm_cache := None |}.

(** ** Queries, and the monad of logged, fallible computations *)

Inductive Field := Fpk | Femail | Fphone.

Inductive Query :=
  | QGet (m : Model) (f : Field) (v : PyVal)
  | QFilterFirst (m : Model) (f : Field) (v : PyVal)
  | QGroupsAll (m : Model) (id : Z)
  | QPermissionsValuesList (g : Z).

(** A computation yields the queries it issued, in order, and either a
    value or the exception that ended it. *)
Definition M (A : Type) : Type := list Query * Result A.

#[global] Instance M_ret : MRet M := λ A a, ([], Return a).

#[global] Instance M_bind : MBind M := λ A B f m,
  match m with
  | (log, Return a) => let '(log', r) := f a in (log ++ log', r)
  | (log, Raise e) => (log, Raise e)
  end.

Definition raise {A} (e : Exception) : M A := ([], Raise e).

Definition query (q : Query) : M unit := ([q], Return ()).

(** [try: body except (e1, e2, ...): handler]. Only the listed exceptions
    are caught. *)
Definition try_except {A} (body : M A) (es : list Exception) (handler : M A) : M A :=
  match body with
  | (log, Return a) => (log, Return a)
  | (log, Raise e) =>
      if decide (e ∈ es)
      then let '(log', r) := handler in (log ++ log', r)
      else (log, Raise e)
  end.

(** ** The ORM calls the backend makes *)

Definition column (f : Field) (r : Row) : PyVal :=
  match f with
  | Fpk => PyInt (pk r)
  | Femail => from_option PyStr PyNone (email r)
  | Fphone => from_option PyStr PyNone (phone r)
  end.

#[global] Instance Result_eq_dec `{EqDecision A} : EqDecision (Result A).
Proof. solve_decision. Defined.

#[global] Instance spec_float_eq_dec : EqDecision spec_float.
Proof. solve_decision. Defined.

#[global] Instance PyVal_eq_dec : EqDecision PyVal.
Proof. solve_decision. Defined.

(** An exact lookup [field=v] matches the rows whose column equals [v]
    (for [v = None], the rows where it is NULL). *)
Definition matches (f : Field) (v : PyVal) (r : Row) : bool :=
  bool_decide (column f r = v).

Definition select (db : Database) (m : Model) (f : Field) (v : PyVal) : list Row :=
  List.filter (matches f v) (objects db m).

(** [Model.objects.get(field=v)] *)
Definition objects_get (db : Database) (m : Model) (f : Field) (v : PyVal) : M Instance :=
  _ ← query (QGet m f v);
  match select db m f v with
  | [] => raise (DoesNotExist m)
  | [r] => mret (from_db m r)
  | _ :: _ :: _ => raise (MultipleObjectsReturned m)
  end.

(** [Model.objects.filter(field=v).first()] *)
Definition objects_filter_first (db : Database) (m : Model) (f : Field) (v : PyVal)
  : M (option Instance) :=
  _ ← query (QFilterFirst m f v);
  mret (from_db m <$> head (select db m f v)).

(** ** [authenticate] *)

(** The five probes after the admin one share one shape:
    [x = ...first(); if x: if x.check_password(password): return x].
    [Some i] is the early return, [None] falls through. *)
Definition probe (db : Database) (m : Model) (f : Field) (username password : string)
  : M (option Instance) :=
  x ← objects_filter_first db m f (PyStr username);
  match x with
  | Some i => if check_password (fields i) password then mret (Some i) else mret None
  | None => mret None
  end.

(** The admin probe: [get] inside [try ... except User.DoesNotExist: pass]. *)
Definition probe_admin (db : Database) (username password : string) : M (option Instance) :=
  try_except
    (user ← objects_get db User Femail (PyStr username);
     if check_password (fields user) password then mret (Some user) else mret None)
    [DoesNotExist User]
    (mret None).

(** [a or_else b]: return what [a] returned, otherwise go on with [b]. *)
Definition or_else (a b : M (option Instance)) : M (option Instance) :=
  r ← a; match r with Some i => mret (Some i) | None => b end.

Definition authenticate (db : Database) (username password : option string)
  : M (option Instance) :=
  match username, password with
  | None, _ | _, None => mret None
  | Some username, Some password =>
      or_else (probe_admin db username password)
     (or_else (probe db Staff Fphone username password)
     (or_else (probe db Staff Femail username password)
     (or_else (probe db Parent Fphone username password)
     (or_else (probe db Student Fphone username password)
     (or_else (probe db Student Femail username password)
              (mret None))))))
  end.

(** ** [int(user_id)] *)

(** [int(s)] for a [str] is the interpreter's own: which characters count
    as blanks and as digits, and how long a literal may be, vary with its
    version and its settings. It is taken as given: [int_of_str s] is the
    integer [int(s)] returns, [None] when it raises [ValueError] (a [str] is
    held as its UTF-8 text). *)
Class Interpreter := {
  int_of_str : string → option Z;
}.

(** A reading of ASCII decimal literals, for the sample interpreter below:
    blanks around (tab, line feed, vertical tab, form feed, carriage return,
    space), an optional sign, then digits, which single underscores may
    separate. Any other text is refused, and no length is. *)
Definition is_space (c : ascii) : bool :=
  let n := Z.of_nat (nat_of_ascii c) in
  ((9 <=? n) && (n <=? 13)) || (n =? 32).

Definition digit_of (c : ascii) : option Z :=
  let n := Z.of_nat (nat_of_ascii c) in
  if (48 <=? n) && (n <=? 57) then Some (n - 48) else None.

Fixpoint lstrip (s : list ascii) : list ascii :=
  match s with
  | c :: rest => if is_space c then lstrip rest else s
  | [] => []
  end.

Definition strip (s : list ascii) : list ascii :=
  rev (lstrip (rev (lstrip s))).

(** Decimal digits, where single underscores may separate digits.
    [after_digit] tells whether the previous character was a digit. *)
Fixpoint scan_digits (s : list ascii) (acc : Z) (after_digit : bool) : option Z :=
  match s with
  | [] => if after_digit then Some acc else None
  | c :: rest =>
      match digit_of c with
      | Some d => scan_digits rest (10 * acc + d) true
      | None =>
          if decide (c = "_"%char)
          then (if after_digit then scan_digits rest acc false else None)
          else None
      end
  end.

Definition ascii_int_of_str (s : string) : option Z :=
  match strip (list_ascii_of_string s) with
  | "+"%char :: ds => scan_digits ds 0 false
  | "-"%char :: ds => Z.opp <$> scan_digits ds 0 false
  | ds => scan_digits ds 0 false
  end.

(** [int(x)] for a [float]: the value truncated towards zero;
    [OverflowError] for an infinity, [ValueError] for a NaN. A finite value
    is [m * 2^e], negated when the sign bit [s] is set. *)
Definition int_of_float (x : spec_float) : Result Z :=
  match x with
  | S754_zero _ => Return 0
  | S754_infinity _ => Raise OverflowError
  | S754_nan => Raise ValueError
  | S754_finite s m e =>
      let magnitude := Z.shiftl (Z.pos m) e in
      Return (if s then - magnitude else magnitude)
  end.

(** [int(v)]. [None] has no conversion ([TypeError]); a [bool] is 0 or 1; a
    [str] that is not a number raises [ValueError]; another object converts
    the way its type says. *)
Definition py_int `{Interpreter} (v : PyVal) : M Z :=
  match v with
  | PyNone => raise TypeError
  | PyBool b => mret (if b then 1 else 0)
  | PyInt n => mret n
  | PyFloat x => ([], int_of_float x)
  | PyStr s => from_option mret (raise ValueError) (int_of_str s)
  | PyObject conversion => ([], conversion)
  end.

(** ** [get_user] *)

(** The request the middleware hands out. [session] is [None] when the
    request object has no [session] attribute; otherwise it is the session
    dictionary, whose values are the strings the login flow stored. *)
Record Request := {
  session : option (gmap string string);
}.

Definition _USER_MODEL_MAP : gmap string Model :=
  {[ "student" := Student; "staff" := Staff; "parent" := Parent; "user" := User ]}.

Definition _GET_USER_ORDER : list Model := [Student; Parent; Staff; User].

(** [try: return model.objects.get(pk=user_id)
     except model.DoesNotExist: <otherwise>] *)
Definition get_or (db : Database) (model : Model) (user_id : Z)
    (otherwise : M (option Instance)) : M (option Instance) :=
  try_except
    (i ← objects_get db model Fpk (PyInt user_id); mret (Some i))
    [DoesNotExist model]
    otherwise.

(** The loop over [_GET_USER_ORDER]; falling out of it returns [None]. *)
Fixpoint get_user_fallback (db : Database) (order : list Model) (user_id : Z)
  : M (option Instance) :=
  match order with
  | [] => mret None
  | model :: rest => get_or db model user_id (get_user_fallback db rest user_id)
  end.

(** The model the session names, when the branch
    [if model_label and model_label in _USER_MODEL_MAP] is taken. *)
Definition session_model (request : option Request) : option Model :=
  match request with
  | Some req =>
      match session req with
      | Some sess =>
          match sess !! "_auth_user_model" with
          | Some model_label =>
              if bool_decide (model_label ≠ "") then _USER_MODEL_MAP !! model_label
              else None
          | None => None
          end
      | None => None
      end
  | None => None
  end.

(** [request] is what [get_current_request()] returns. *)
Definition get_user `{Interpreter} (db : Database) (request : option Request)
    (user_id : PyVal)
  : M (option Instance) :=
  if decide (user_id = PyNone) then mret None
  else
    parsed ← try_except (n ← py_int user_id; mret (Some n))
                        [TypeError; ValueError] (mret None);
    match parsed with
    | None => mret None
    | Some user_id =>
        match session_model request with
        | Some model => get_or db model user_id (mret None)
        | None => get_user_fallback db _GET_USER_ORDER user_id
        end
    end.

(** ** Permissions *)

(** What the permission methods receive as [user_obj]: the framework's
    [AnonymousUser] (inactive, anonymous, an instance of no model), or a
    model instance. *)
Inductive UserObj :=
  | AnonymousUser
  | Obj (i : Instance).

Definition user_is_active (u : UserObj) : bool :=
  match u with
  | AnonymousUser => false
  | Obj i => is_active (fields i)
  end.

Definition user_is_anonymous (u : UserObj) : bool :=
  match u with
  | AnonymousUser => true
  | Obj i => is_anonymous i
  end.

(** [isinstance(user_obj, (Staff, Student))] *)
Definition is_staff_or_student (u : UserObj) : bool :=
  match u with
  | AnonymousUser => false
  | Obj i => match cls i with Staff | Student => true | User | Parent => false end
  end.

(** ["%s.%s" % (ct, name)] *)
Definition perm_string (p : string * string) : string :=
  p.1 +:+ "." +:+ p.2.

(** The body of [for group in user_obj.groups.all(): perms.update(...)],
    one [values_list] query per group. *)
Fixpoint collect_perms (groups : list Group) (perms : gset string) : M (gset string) :=
  match groups with
  | [] => mret perms
  | group :: rest =>
      _ ← query (QPermissionsValuesList (group_pk group));
      collect_perms rest (perms ∪ list_to_set (perm_string <$> permissions group))
  end.

(** [user_obj._group_perm_cache = perms] *)
Definition set_group_perm_cache (i : Instance) (perms : gset string) : Instance :=
  {| cls := cls i; fields := fields i; is_anonymous := is_anonymous i;
     _group_perm_cache := Some perms |}.

(** The permission methods inherited from Django's [ModelBackend], reached
    through [super()]. What they compute for administrators and parents is
    not this module's business, so they are an interface. A method returns
    its result and the user object as it leaves it. *)
Class ModelBackend := {
  super_get_group_permissions :
    Database → UserObj → PyVal → M (gset string * UserObj);
  super_get_all_permissions :
    Database → UserObj → PyVal → M (gset string * UserObj);
}.

(** Django's [ModelBackend.has_perm]:
    [return user_obj.is_active and super().has_perm(user_obj, perm, obj=obj)]
    over [BaseBackend.has_perm]:
    [return perm in self.get_all_permissions(user_obj, obj=obj)].
    [self] is the subclass, so the call goes to the overriding method, which
    is passed in. *)
Definition ModelBackend_has_perm
    (self_get_all_permissions : UserObj → PyVal → M (gset string * UserObj))
    (user_obj : UserObj) (perm : string) (obj : PyVal) : M (bool * UserObj) :=
  if user_is_active user_obj
  then '(perms, user_obj) ← self_get_all_permissions user_obj obj;
       mret (bool_decide (perm ∈ perms), user_obj)
  else mret (false, user_obj).

Section Permissions.
Context `{ModelBackend}.

Definition get_group_permissions (db : Database) (user_obj : UserObj)
    (obj : PyVal) : M (gset string * UserObj) :=
  if negb (user_is_active user_obj) || user_is_anonymous user_obj || bool_decide (obj ≠ PyNone)
  then mret (∅, user_obj)
  else
    match user_obj with
    | Obj i =>
        if is_staff_or_student user_obj then
          match _group_perm_cache i with
          | None =>
              _ ← query (QGroupsAll (cls i) (pk (fields i)));
              perms ← collect_perms (groups_all db (cls i) (pk (fields i))) ∅;
              mret (perms, Obj (set_group_perm_cache i perms))
          | Some cached => mret (cached, user_obj)
          end
        else super_get_group_permissions db user_obj obj
    | AnonymousUser => super_get_group_permissions db user_obj obj
    end.

Definition get_all_permissions (db : Database) (user_obj : UserObj)
    (obj : PyVal) : M (gset string * UserObj) :=
  if negb (user_is_active user_obj) || user_is_anonymous user_obj || bool_decide (obj ≠ PyNone)
  then mret (∅, user_obj)
  else
    if is_staff_or_student user_obj
    then get_group_permissions db user_obj obj
    else super_get_all_permissions db user_obj obj.

Definition has_perm (db : Database) (user_obj : UserObj) (perm : string)
    (obj : PyVal) : M (bool * UserObj) :=
  if negb (user_is_active user_obj) then mret (false, user_obj)
  else
    if is_staff_or_student user_obj
    then '(perms, user_obj) ← get_all_permissions db user_obj obj;
         mret (bool_decide (perm ∈ perms), user_obj)
    else ModelBackend_has_perm (get_all_permissions db) user_obj perm obj.

End Permissions.

(** * Vocabulary of the statements *)

(** What a lookup by primary key may answer: the row of that table with the
    id, loaded afresh, or nothing when the table has no such row. *)
Definition record_with_pk (db : Database) (m : Model) (id : Z)
    (res : option Instance) : Prop :=
  match res with
  | Some i => ∃ r, r ∈ objects db m ∧ pk r = id ∧ i = from_db m r
  | None => ∀ r, r ∈ objects db m → pk r ≠ id
  end.

(** A request whose session has no usable model label: there is no request,
    it has no session, the key is missing, or the label stored under it is
    none of the four the backend knows. *)
Definition unrecognized (request : option Request) : Prop :=
  ∀ req sess tag,
    request = Some req → session req = Some sess →
    sess !! "_auth_user_model" = Some tag →
    tag ∉ ["student"; "staff"; "parent"; "user"].

(** The guard the three permission methods share: the user is inactive or
    anonymous, or an object is given. *)
Definition denied (user_obj : UserObj) (obj : PyVal) : Prop :=
  user_is_active user_obj = false ∨ user_is_anonymous user_obj = true ∨ obj ≠ PyNone.

(** A computation that ends with a value, not an exception. *)
Definition returns {A} (m : M A) : Prop := ∃ log res, m = (log, Return res).

(** [int(raw)] succeeds. *)
Definition parses `{Interpreter} (raw : PyVal) : Prop := ∃ n, py_int raw = mret n.

(** The probes of [authenticate], as (model, field) pairs in the order the
    method makes them. *)
Definition probes : list (Model * Field) :=
  [(User, Femail); (Staff, Fphone); (Staff, Femail);
   (Parent, Fphone); (Student, Fphone); (Student, Femail)].

(** What one probe meets in the tables: no record, a record whose secret
    does not verify, a record whose secret verifies, or (for the admin
    lookup, which expects one record) several records. *)
Inductive Outcome :=
  | NoRecord
  | WrongSecret (i : Instance)
  | Verified (i : Instance)
  | Ambiguous.

Definition verify (m : Model) (r : Row) (password : string) : Outcome :=
  if check_password r password then Verified (from_db m r) else WrongSecret (from_db m r).

(** The admin lookup finds the single matching row; the other lookups take
    the first matching row. *)
Definition probe_outcome (db : Database) (p : Model * Field) (username password : string)
  : Outcome :=
  match p.1, select db p.1 p.2 (PyStr username) with
  | _, [] => NoRecord
  | User, [r] => verify User r password
  | User, _ :: _ :: _ => Ambiguous
  | m, r :: _ => verify m r password
  end.

(** A probe fails when it finds no record or the record's secret does not
    verify. *)
Definition fails (o : Outcome) : Prop :=
  match o with
  | NoRecord | WrongSecret _ => True
  | Verified _ | Ambiguous => False
  end.

(** The query a probe issues. *)
Definition probe_query (username : string) (p : Model * Field) : Query :=
  match p.1 with
  | User => QGet User p.2 (PyStr username)
  | m => QFilterFirst m p.2 (PyStr username)
  end.

(** The statements of [authenticate] one after the other, over a list of
    probes: [search db probes] is the body of the method. *)
Definition run_probe (db : Database) (p : Model * Field) (username password : string)
  : M (option Instance) :=
  match p.1 with
  | User => probe_admin db username password
  | m => probe db m p.2 username password
  end.

Fixpoint search (db : Database) (ps : list (Model * Field)) (username password : string)
  : M (option Instance) :=
  match ps with
  | [] => mret None
  | p :: rest => or_else (run_probe db p username password) (search db rest username password)
  end.

(** * Sample data *)

Module Sample.

(** A verifier accepting exactly the secret [s]. *)
Definition secret (s : string) : string → bool := String.eqb s.

Definition row (id : Z) (em ph : option string) (s : string) : Row :=
  {| pk := id; email := em; phone := ph; is_active := true;
     check_password := secret s |}.

(** A request whose session carries the label [tag]. *)
Definition tagged (tag : string) : option Request :=
  Some {| session := Some {[ "_auth_user_model" := tag ]} |}.

Definition root := row 1 (Some "root@school.org") None "r00t".
Definition clerk := row 1 (Some "clerk@school.org") (Some "5550001") "cl3rk".
Definition teacher := row 2 (Some "teach@school.org") (Some "5550002") "t34ch".
Definition mother := row 1 None (Some "5550002") "t34ch".
Definition pupil := row 1 (Some "pupil@school.org") (Some "5550003") "pup1l".

Definition G1 := {| group_pk := 1; permissions := [("app", "view_x")] |}.
Definition G2 := {| group_pk := 2; permissions := [("app", "edit_y")] |}.

(** Ids collide across tables; the teacher and a parent share a phone
    number and a secret; the pupil is in two groups. *)
Definition school : Database :=
  {| User_objects := [root];
     Staff_objects := [clerk; teacher];
     Parent_objects := [mother];
     Student_objects := [pupil];
     groups_all := λ m id,
       match m with Student => if decide (id = 1) then [G1; G2] else [] | _ => [] end |}.

(** Two administrators registered with one address, and an administrator
    registered with an empty one. *)
Definition deputy := row 2 (Some "root@school.org") None "d3puty".
Definition ghost := row 3 (Some "") None "gh0st".

Definition crowded : Database :=
  {| User_objects := [root; deputy; ghost];
     Staff_objects := [clerk; teacher; row 3 None (Some "5550001") "cl3rk2"];
     Parent_objects := [mother];
     Student_objects := [pupil];
     groups_all := λ _ _, [] |}.

(** A stand-in for the interpreter: it reads ASCII decimal literals. *)
Definition cpython : Interpreter := {| int_of_str := ascii_int_of_str |}.

(** A stand-in for the inherited permission methods: no permissions. *)
Definition django : ModelBackend :=
  {| super_get_group_permissions := λ _ u _, mret (∅, u);
     super_get_all_permissions := λ _ u _, mret (∅, u) |}.

End Sample.


(** * Vocabulary of the further properties *)

(** The row behind an instance [authenticate] may return for the identifier
    [username] and the secret [password]: a row of the instance's table
    whose secret verifies and which carries the identifier in a column that
    the method looks at for that table. *)
Definition credentials_of (db : Database) (username password : string)
    (i : Instance) : Prop :=
  ∃ r, r ∈ objects db (cls i) ∧ i = from_db (cls i) r
       ∧ check_password r password = true
       ∧ match cls i with
         | User => email r = Some username
         | Parent => phone r = Some username
         | Staff | Student => phone r = Some username ∨ email r = Some username
         end.

(** The queries of the permission methods: groups and their permissions. *)
Definition is_group_query (q : Query) : Prop :=
  match q with
  | QGroupsAll _ _ | QPermissionsValuesList _ => True
  | QGet _ _ _ | QFilterFirst _ _ _ => False
  end.

(** Rewriting the [is_active] column of every identity row. *)
Definition set_is_active (act : Row → bool) (r : Row) : Row :=
  {| pk := pk r; email := email r; phone := phone r; is_active := act r;
     check_password := check_password r |}.

Definition db_set_is_active (act : Row → bool) (db : Database) : Database :=
  {| User_objects := set_is_active act <$> User_objects db;
     Staff_objects := set_is_active act <$> Staff_objects db;
     Parent_objects := set_is_active act <$> Parent_objects db;
     Student_objects := set_is_active act <$> Student_objects db;
     groups_all := groups_all db |}.

Definition instance_set_is_active (act : Row → bool) (i : Instance) : Instance :=
  {| cls := cls i; fields := set_is_active act (fields i);
     is_anonymous := is_anonymous i; _group_perm_cache := _group_perm_cache i |}.

(** The value of a computation, mapped. *)
Definition map_result {A B} (f : A → B) (m : M A) : M B :=
  match m with
  | (log, Return a) => (log, Return (f a))
  | (log, Raise e) => (log, Raise e)
  end.

(** A string without a dot, as an app label is. *)
Definition dotless (s : string) : Prop :=
  "."%char ∉ list_ascii_of_string s.

(** The sample school, with the pupil's groups listed the other way round. *)
Definition school_regrouped : Database :=
  {| User_objects := User_objects Sample.school;
     Staff_objects := Staff_objects Sample.school;
     Parent_objects := Parent_objects Sample.school;
     Student_objects := Student_objects Sample.school;
     groups_all := λ m id, reverse (groups_all Sample.school m id) |}.

(** * Properties *)

(** ** Running the monad *)

Ltac run :=
  unfold or_else, probe, probe_admin, get_or, objects_get, objects_filter_first,
    try_except, query, raise, mbind, M_bind, mret, M_ret in *;
  cbn [fst snd app] in *.

(** Closed decidable facts about the sample data. *)
Ltac by_compute := apply (bool_decide_unpack _); vm_compute; reflexivity.

(** Membership of a named row in a sample table. *)
Ltac in_table :=
  cbn; repeat first [ apply list_elem_of_here | apply list_elem_of_further ].

Lemma bind_ret {A B} (a : A) (f : A → M B) : (mret a ≫= f) = f a.
Proof. run. by destruct (f a). Qed.

(** ** The sample interpreter on a few strings *)

Example ascii_int_of_str_samples :
  ascii_int_of_str "42" = Some 42
  ∧ ascii_int_of_str " -7 " = Some (-7)
  ∧ ascii_int_of_str "1_000" = Some 1000
  ∧ ascii_int_of_str "007" = Some 7
  ∧ ascii_int_of_str (String (ascii_of_nat 9) "5") = Some 5
  ∧ ascii_int_of_str (String (ascii_of_nat 28) "5") = None
  ∧ ascii_int_of_str "not-a-number" = None
  ∧ ascii_int_of_str "" = None
  ∧ ascii_int_of_str "1__0" = None
  ∧ ascii_int_of_str "- 7" = None.
Proof. repeat split; reflexivity. Qed.

(** [int()] on floats: truncation towards zero, and the two refusals. *)
Example int_of_float_samples :
  int_of_float (S754_finite false 7 (-1)) = Return 3
  ∧ int_of_float (S754_finite true 7 (-1)) = Return (-3)
  ∧ int_of_float (S754_finite false 3 2) = Return 12
  ∧ int_of_float (S754_zero true) = Return 0
  ∧ int_of_float S754_nan = Raise ValueError
  ∧ int_of_float (S754_infinity true) = Raise OverflowError.
Proof. repeat split; reflexivity. Qed.

(** ** Lookups by primary key *)

Lemma matches_pk (id : Z) (r : Row) : matches Fpk (PyInt id) r = bool_decide (pk r = id).
Proof.
  unfold matches; cbn.
  apply bool_decide_ext; split; [by intros [= ->] | by intros ->].
Qed.

Lemma select_pk_absent (db : Database) (m : Model) (id : Z) :
  (∀ r, r ∈ objects db m → pk r ≠ id) → select db m Fpk (PyInt id) = [].
Proof.
  unfold select. induction (objects db m) as [|r rows IH]; intros Hno; [done|].
  cbn. rewrite matches_pk, bool_decide_eq_false_2.
  - apply IH. intros r' Hr'. apply Hno. by right.
  - apply Hno. by left.
Qed.

Lemma select_pk_unique (db : Database) (m : Model) (r : Row) :
  NoDup (pk <$> objects db m) → r ∈ objects db m →
  select db m Fpk (PyInt (pk r)) = [r].
Proof.
  unfold select. induction (objects db m) as [|r' rows IH]; intros Hnd Hin.
  - by apply elem_of_nil in Hin.
  - cbn in Hnd. apply NoDup_cons in Hnd as [Hfresh Hnd].
    cbn. rewrite matches_pk. apply elem_of_cons in Hin as [<-|Hin].
    + rewrite bool_decide_eq_true_2 by done. f_equal.
      assert (select_rest : ∀ l : list Row, pk r ∉ pk <$> l →
                List.filter (matches Fpk (PyInt (pk r))) l = []).
      { clear. induction l as [|x l IHl]; intros Hx; [done|].
        cbn. rewrite matches_pk, bool_decide_eq_false_2.
        - apply IHl. intros ?. apply Hx. cbn. by right.
        - intros Heq. apply Hx. cbn. rewrite Heq. by left. }
      by apply select_rest.
    + rewrite bool_decide_eq_false_2; [by apply IH|].
      intros Heq. apply Hfresh. rewrite Heq. by apply list_elem_of_fmap_2.
Qed.

Lemma get_or_absent (db : Database) (m : Model) (id : Z) (otherwise : M (option Instance)) :
  (∀ r, r ∈ objects db m → pk r ≠ id) →
  get_or db m id otherwise =
    (let '(log, res) := otherwise in (QGet m Fpk (PyInt id) :: log, res)).
Proof.
  intros Hno. run. rewrite select_pk_absent by done. cbn.
  rewrite decide_True by (apply list_elem_of_singleton; done).
  by destruct otherwise.
Qed.

Lemma get_or_found (db : Database) (m : Model) (r : Row) (otherwise : M (option Instance)) :
  NoDup (pk <$> objects db m) → r ∈ objects db m →
  get_or db m (pk r) otherwise =
    ([QGet m Fpk (PyInt (pk r))], Return (Some (from_db m r))).
Proof. intros Hnd Hin. run. by rewrite select_pk_unique. Qed.

Lemma get_or_tagged (db : Database) (m : Model) (id : Z) :
  NoDup (pk <$> objects db m) →
  ∃ res, get_or db m id (mret None) = ([QGet m Fpk (PyInt id)], Return res)
         ∧ record_with_pk db m id res.
Proof.
  intros Hnd.
  destruct (decide (Exists (λ r, pk r = id) (objects db m))) as [Hex|Hno].
  - apply Exists_exists in Hex as (r & Hin & <-).
    exists (Some (from_db m r)). rewrite get_or_found by done.
    split; [done|]. by exists r.
  - assert (Habs : ∀ r, r ∈ objects db m → pk r ≠ id).
    { intros r Hin Heq. apply Hno, Exists_exists. eauto. }
    exists None. by rewrite get_or_absent.
Qed.

(** ** [get_user] after its guards *)

Lemma py_int_not_None `{Interpreter} (raw : PyVal) (id : Z) : py_int raw = mret id → raw ≠ PyNone.
Proof. by intros Hp ->. Qed.

Lemma get_user_parsed `{Interpreter}
    (db : Database) (request : option Request) (raw : PyVal) (id : Z) :
  py_int raw = mret id →
  get_user db request raw =
    match session_model request with
    | Some model => get_or db model id (mret None)
    | None => get_user_fallback db _GET_USER_ORDER id
    end.
Proof.
  intros Hp. unfold get_user.
  rewrite decide_False by by eapply py_int_not_None.
  rewrite Hp, bind_ret. unfold try_except at 1. cbn.
  by destruct (match session_model request with Some _ => _ | None => _ end).
Qed.

(** The request's session names a model exactly when it maps the key
    [_auth_user_model] to one of the keys of [_USER_MODEL_MAP]. *)
Lemma session_model_tagged (sess : gmap string string) (tag : string) (m : Model) :
  sess !! "_auth_user_model" = Some tag → _USER_MODEL_MAP !! tag = Some m →
  session_model (Some {| session := Some sess |}) = Some m.
Proof.
  intros Htag Hm. cbn. rewrite Htag.
  destruct (decide (tag = "")) as [->|Hne]; [done|].
  by rewrite bool_decide_eq_true_2.
Qed.

Lemma _USER_MODEL_MAP_keys (tag : string) (m : Model) :
  _USER_MODEL_MAP !! tag = Some m ↔
  (tag, m) ∈ [("user", User); ("staff", Staff); ("parent", Parent); ("student", Student)].
Proof.
  unfold _USER_MODEL_MAP.
  rewrite !lookup_insert_Some, lookup_singleton_Some, !elem_of_cons, elem_of_nil.
  split.
  - intros [[<- <-]|[? [[<- <-]|[? [[<- <-]|[? [<- <-]]]]]]]; auto 6.
  - intros [[= -> ->]|[[= -> ->]|[[= -> ->]|[[= -> ->]|[]]]]]; auto 10.
Qed.

(** ** Session-tagged resolution *)

(** C1, as the spec words it, fails: a session labelled ["admin"] is not
    sent to the admin table. The label is not a key of [_USER_MODEL_MAP], so
    the fallback search runs and, here, answers with the student of id 1
    although an administrator with id 1 exists. *)
Lemma get_user_admin_tag_counterexample :
  @get_user Sample.cpython Sample.school (Sample.tagged "admin") (PyInt 1)
    = ([QGet Student Fpk (PyInt 1)], Return (Some (from_db Student Sample.pupil)))
  ∧ ¬ (∀ db sess id,
         sess !! "_auth_user_model" = Some "admin" →
         NoDup (pk <$> objects db User) →
         ∃ res, @get_user Sample.cpython db (Some {| session := Some sess |}) (PyInt id)
                  = ([QGet User Fpk (PyInt id)], Return res)
                ∧ record_with_pk db User id res).
Proof.
  split; [by vm_compute|].
  intros Hclaim.
  destruct (Hclaim Sample.school {[ "_auth_user_model" := "admin" ]} 1)
    as (res & Heq & _).
  - by vm_compute.
  - by_compute.
  - vm_compute in Heq. discriminate Heq.
Qed.

(** C1, amended: the labels the backend knows are [user], [staff], [parent]
    and [student], and the administrators' label is [user]. For a session
    carrying the administrators' label and any id, [get_user] issues the one
    query on the admin table and answers with the administrator of that id,
    or with [None] when there is none. *)
Theorem get_user_admin_label `{Interpreter} (db : Database) (sess : gmap string string)
    (tag : string) (raw : PyVal) (id : Z) :
  (∀ t m, _USER_MODEL_MAP !! t = Some m ↔
          (t, m) ∈ [("user", User); ("staff", Staff); ("parent", Parent); ("student", Student)])
  ∧ (_USER_MODEL_MAP !! tag = Some User ↔ tag = "user")
  ∧ (sess !! "_auth_user_model" = Some tag →
     _USER_MODEL_MAP !! tag = Some User →
     py_int raw = mret id →
     NoDup (pk <$> objects db User) →
     ∃ res, get_user db (Some {| session := Some sess |}) raw
              = ([QGet User Fpk (PyInt id)], Return res)
            ∧ record_with_pk db User id res).
Proof.
  split; [apply _USER_MODEL_MAP_keys|]. split.
  - rewrite _USER_MODEL_MAP_keys, !elem_of_cons, elem_of_nil.
    split; [|by left; subst].
    by intros [[= ->]|[[=]|[[=]|[[=]|[]]]]].
  - intros Htag Hm Hp Hnd.
    rewrite (get_user_parsed _ _ _ _ Hp), (session_model_tagged _ _ _ Htag Hm).
    by apply get_or_tagged.
Qed.

Lemma get_user_admin_label_witness :
  ∃ res, @get_user Sample.cpython Sample.school (Sample.tagged "user") (PyStr "1")
           = ([QGet User Fpk (PyInt 1)], Return res)
         ∧ record_with_pk Sample.school User 1 res.
Proof.
  apply (get_user_admin_label (H := Sample.cpython) Sample.school {[ "_auth_user_model" := "user" ]}
           "user" (PyStr "1") 1).
  - by vm_compute.
  - by vm_compute.
  - by vm_compute.
  - by_compute.
Defined.

(** C2: when the session names a model and that model's table has no row
    with the id, [get_user] answers [None] after the one query on that
    table; no other table is tried. So a session labelled ["student"] and an
    id held only by a staff member resolve to [None]. *)
Theorem get_user_tagged_no_fallback `{Interpreter} (db : Database) (sess : gmap string string)
    (raw : PyVal) (id : Z) :
  (∀ tag m,
     sess !! "_auth_user_model" = Some tag →
     _USER_MODEL_MAP !! tag = Some m →
     py_int raw = mret id →
     (∀ r, r ∈ objects db m → pk r ≠ id) →
     get_user db (Some {| session := Some sess |}) raw
       = ([QGet m Fpk (PyInt id)], Return None))
  ∧ (∀ s,
     sess !! "_auth_user_model" = Some "student" →
     py_int raw = mret id →
     s ∈ objects db Staff → pk s = id →
     (∀ r, r ∈ objects db Student → pk r ≠ id) →
     get_user db (Some {| session := Some sess |}) raw
       = ([QGet Student Fpk (PyInt id)], Return None)).
Proof.
  assert (Hgen : ∀ tag m,
     sess !! "_auth_user_model" = Some tag →
     _USER_MODEL_MAP !! tag = Some m →
     py_int raw = mret id →
     (∀ r, r ∈ objects db m → pk r ≠ id) →
     get_user db (Some {| session := Some sess |}) raw
       = ([QGet m Fpk (PyInt id)], Return None)).
  { intros tag m Htag Hm Hp Hno.
    rewrite (get_user_parsed _ _ _ _ Hp), (session_model_tagged _ _ _ Htag Hm).
    by rewrite get_or_absent. }
  split; [exact Hgen|].
  intros s Htag Hp _ _ Hno. by apply (Hgen "student" Student).
Qed.

Lemma get_user_tagged_no_fallback_witness :
  @get_user Sample.cpython Sample.school (Sample.tagged "student") (PyStr "2")
    = ([QGet Student Fpk (PyInt 2)], Return None).
Proof.
  apply (proj2 (get_user_tagged_no_fallback (H := Sample.cpython) Sample.school
                  {[ "_auth_user_model" := "student" ]} (PyStr "2") 2) Sample.teacher).
  - by vm_compute.
  - by vm_compute.
  - in_table.
  - done.
  - intros r Hr. cbn in Hr. apply list_elem_of_singleton in Hr as ->. done.
Defined.

(** C9: the label ["user"] denotes the administrators. For a session
    carrying it, [get_user] issues the one query on the admin table and
    answers with the administrator of the given id, or [None] when there is
    none. *)
Theorem get_user_user_tag `{Interpreter} (db : Database) (sess : gmap string string)
    (raw : PyVal) (id : Z) :
  sess !! "_auth_user_model" = Some "user" →
  py_int raw = mret id →
  NoDup (pk <$> objects db User) →
  ∃ res, get_user db (Some {| session := Some sess |}) raw
           = ([QGet User Fpk (PyInt id)], Return res)
         ∧ record_with_pk db User id res.
Proof.
  intros Htag Hp Hnd.
  rewrite (get_user_parsed _ _ _ _ Hp).
  rewrite (session_model_tagged _ "user" User Htag) by done.
  by apply get_or_tagged.
Qed.

Lemma get_user_user_tag_witness :
  ∃ res, @get_user Sample.cpython Sample.school (Sample.tagged "user") (PyInt 2)
           = ([QGet User Fpk (PyInt 2)], Return res)
         ∧ record_with_pk Sample.school User 2 res.
Proof.
  apply (get_user_user_tag (H := Sample.cpython)
        Sample.school {[ "_auth_user_model" := "user" ]} (PyInt 2) 2).
  - by vm_compute.
  - done.
  - by_compute.
Defined.

(** ** The fallback search *)

Lemma session_model_unrecognized (request : option Request) :
  unrecognized request → session_model request = None.
Proof.
  intros Hun. destruct request as [[[sess|]]|]; cbn; try done.
  destruct (sess !! "_auth_user_model") as [tag|] eqn:Htag; [|done].
  case_bool_decide; [|done].
  destruct (_USER_MODEL_MAP !! tag) as [m|] eqn:Hm; [|done].
  exfalso. apply (Hun _ sess tag eq_refl eq_refl Htag).
  apply _USER_MODEL_MAP_keys in Hm.
  rewrite !elem_of_cons, elem_of_nil in Hm. rewrite !elem_of_cons.
  destruct Hm as [[= -> _]|[[= -> _]|[[= -> _]|[[= -> _]|[]]]]]; auto.
Qed.

Lemma get_user_fallback_found (db : Database) (order : list Model) (id : Z) :
  ∀ (n : nat) (m : Model) (r : Row),
    order !! n = Some m →
    (∀ m', m' ∈ take n order → ∀ r', r' ∈ objects db m' → pk r' ≠ id) →
    NoDup (pk <$> objects db m) → r ∈ objects db m → pk r = id →
    get_user_fallback db order id
      = ((λ m, QGet m Fpk (PyInt id)) <$> take (S n) order,
         Return (Some (from_db m r))).
Proof.
  induction order as [|m0 order IH]; intros n m r Hn Hbefore Hnd Hin Hpk; [done|].
  destruct n as [|n]; cbn in Hn.
  - injection Hn as ->. subst id. cbn. by rewrite get_or_found.
  - cbn [get_user_fallback]. rewrite get_or_absent.
    + rewrite (IH n m r); try done.
      intros m' Hm'. apply Hbefore. cbn. by right.
    + apply Hbefore. cbn. by left.
Qed.

Lemma get_user_fallback_none (db : Database) (order : list Model) (id : Z) :
  (∀ m, m ∈ order → ∀ r, r ∈ objects db m → pk r ≠ id) →
  get_user_fallback db order id
    = ((λ m, QGet m Fpk (PyInt id)) <$> order, Return None).
Proof.
  induction order as [|m0 order IH]; intros Hno; [done|].
  cbn [get_user_fallback]. rewrite get_or_absent by (apply Hno; by left).
  rewrite IH; [done|]. intros m Hm. apply Hno. by right.
Qed.

(** C5: without a usable session label, [get_user] tries the tables in the
    order Student, Parent, Staff, User and answers with the row of the first
    table that holds the id, querying no table after it; if none holds it
    the answer is [None] after the four queries. An id held by both a
    student and an administrator resolves to the student. *)
Theorem get_user_fallback_order `{Interpreter} (db : Database) (request : option Request)
    (raw : PyVal) (id : Z) :
  unrecognized request →
  py_int raw = mret id →
  _GET_USER_ORDER = [Student; Parent; Staff; User]
  ∧ (∀ (n : nat) (m : Model) (r : Row),
       _GET_USER_ORDER !! n = Some m →
       (∀ m', m' ∈ take n _GET_USER_ORDER → ∀ r', r' ∈ objects db m' → pk r' ≠ id) →
       NoDup (pk <$> objects db m) → r ∈ objects db m → pk r = id →
       get_user db request raw
         = ((λ m, QGet m Fpk (PyInt id)) <$> take (S n) _GET_USER_ORDER,
            Return (Some (from_db m r))))
  ∧ ((∀ m, m ∈ _GET_USER_ORDER → ∀ r, r ∈ objects db m → pk r ≠ id) →
     get_user db request raw
       = ((λ m, QGet m Fpk (PyInt id)) <$> _GET_USER_ORDER, Return None))
  ∧ (∀ s a,
       NoDup (pk <$> objects db Student) →
       s ∈ objects db Student → pk s = id →
       a ∈ objects db User → pk a = id →
       get_user db request raw
         = ([QGet Student Fpk (PyInt id)], Return (Some (from_db Student s)))).
Proof.
  intros Hun Hp.
  rewrite (get_user_parsed _ _ _ _ Hp), (session_model_unrecognized _ Hun).
  split; [done|]. split; [|split].
  - intros n m r. apply get_user_fallback_found.
  - apply get_user_fallback_none.
  - intros s a Hnd Hs Hpk _ _.
    rewrite (get_user_fallback_found db _ id 0%nat Student s); try done.
    intros m' Hm'. cbn in Hm'. by apply elem_of_nil in Hm'.
Qed.

Lemma get_user_fallback_order_witness :
  @get_user Sample.cpython Sample.school (Sample.tagged "admin") (PyStr " 1 ")
    = ([QGet Student Fpk (PyInt 1)], Return (Some (from_db Student Sample.pupil)))
  ∧ @get_user Sample.cpython Sample.school None (PyInt 2)
    = ([QGet Student Fpk (PyInt 2); QGet Parent Fpk (PyInt 2);
        QGet Staff Fpk (PyInt 2)], Return (Some (from_db Staff Sample.teacher))).
Proof.
  split.
  - apply (get_user_fallback_order (H := Sample.cpython)
        Sample.school (Sample.tagged "admin") (PyStr " 1 ") 1)
      with (a := Sample.root).
    + intros req sess tag Hreq Hsess Htag.
      injection Hreq as <-. cbn in Hsess. injection Hsess as <-.
      vm_compute in Htag. injection Htag as <-. by_compute.
    + by vm_compute.
    + by_compute.
    + in_table.
    + done.
    + in_table.
    + done.
  - apply (proj1 (proj2 (get_user_fallback_order (H := Sample.cpython)
        Sample.school None (PyInt 2) 2
                           ltac:(intros ? ? ? Hreq; discriminate Hreq) eq_refl)) 2%nat Staff Sample.teacher).
    + done.
    + intros m' Hm' r' Hr'. cbn in Hm'.
      apply elem_of_cons in Hm' as [->|Hm'].
      * cbn in Hr'. apply list_elem_of_singleton in Hr' as ->. done.
      * apply list_elem_of_singleton in Hm' as ->.
        cbn in Hr'. apply list_elem_of_singleton in Hr' as ->. done.
    + by_compute.
    + in_table.
    + done.
Defined.

(** ** Ids that are not numbers *)

(** C6, as the spec words it, fails: not every value that [int()] refuses
    is answered with [None]. The handler names [TypeError] and [ValueError]
    only, and [int()] of an infinite float raises [OverflowError], which
    [get_user] lets through (before any query). *)
Lemma get_user_infinite_float_counterexample :
  @get_user Sample.cpython Sample.school None (PyFloat (S754_infinity false))
    = ([], Raise OverflowError)
  ∧ ¬ (∀ (interpreter : Interpreter) db request raw,
         raw = PyNone ∨ ¬ parses raw →
         get_user db request raw = ([], Return None)).
Proof.
  split; [reflexivity|].
  intros Hclaim.
  specialize (Hclaim Sample.cpython Sample.school None (PyFloat (S754_infinity false))).
  assert (Hrun : @get_user Sample.cpython Sample.school None
                   (PyFloat (S754_infinity false)) = ([], Raise OverflowError))
    by reflexivity.
  rewrite Hrun in Hclaim.
  assert (Hno : ¬ @parses Sample.cpython (PyFloat (S754_infinity false)))
    by (intros [n Hn]; discriminate Hn).
  discriminate (Hclaim (or_intror Hno)).
Qed.

(** C6, amended: for [None], and for any value on which [int()] raises
    [TypeError] or [ValueError] (a value without a conversion, a string that
    is not a number, a NaN), [get_user] answers [None] and issues no query,
    whatever the interpreter accepts as a number. Any other exception of
    [int()] leaves [get_user] as it is, also before any query. *)
Theorem get_user_unconvertible_id `{Interpreter} (db : Database)
    (request : option Request) (raw : PyVal) :
  (raw = PyNone ∨ py_int raw = raise TypeError ∨ py_int raw = raise ValueError →
   get_user db request raw = ([], Return None))
  ∧ (∀ e, raw ≠ PyNone → py_int raw = raise e →
          e ≠ TypeError → e ≠ ValueError →
          get_user db request raw = ([], Raise e)).
Proof.
  split.
  - intros [->|Hraise]; [done|].
    unfold get_user. case_decide; [done|].
    destruct Hraise as [-> | ->]; run;
      by rewrite decide_True by (rewrite !elem_of_cons; auto).
  - intros e Hnone Hraise Hte Hve.
    unfold get_user. rewrite decide_False by done.
    rewrite Hraise. run. rewrite decide_False; [done|].
    rewrite !elem_of_cons, elem_of_nil. by intros [->|[->|[]]].
Qed.

Lemma get_user_unconvertible_id_witness :
  @get_user Sample.cpython Sample.school (Sample.tagged "student") PyNone
    = ([], Return None)
  ∧ @get_user Sample.cpython Sample.school (Sample.tagged "student")
      (PyStr "not-a-number") = ([], Return None)
  ∧ @get_user Sample.cpython Sample.school (Sample.tagged "student")
      (PyObject (Raise TypeError)) = ([], Return None)
  ∧ @get_user Sample.cpython Sample.school (Sample.tagged "student")
      (PyFloat S754_nan) = ([], Return None)
  ∧ @get_user Sample.cpython Sample.school (Sample.tagged "student")
      (PyFloat (S754_infinity true)) = ([], Raise OverflowError).
Proof.
  split; [|split; [|split; [|split]]].
  - apply (proj1 (get_user_unconvertible_id (H := Sample.cpython) Sample.school
                    (Sample.tagged "student") PyNone)).
    by left.
  - apply (proj1 (get_user_unconvertible_id (H := Sample.cpython) Sample.school
                    (Sample.tagged "student") (PyStr "not-a-number"))).
    right; right. reflexivity.
  - apply (proj1 (get_user_unconvertible_id (H := Sample.cpython) Sample.school
                    (Sample.tagged "student") (PyObject (Raise TypeError)))).
    right; left. reflexivity.
  - apply (proj1 (get_user_unconvertible_id (H := Sample.cpython) Sample.school
                    (Sample.tagged "student") (PyFloat S754_nan))).
    right; right. reflexivity.
  - apply (proj2 (get_user_unconvertible_id (H := Sample.cpython) Sample.school
                    (Sample.tagged "student") (PyFloat (S754_infinity true)))
             OverflowError); done.
Defined.

(** ** The credential search *)

Lemma authenticate_search (db : Database) (username password : string) :
  authenticate db (Some username) (Some password) = search db probes username password.
Proof. reflexivity. Qed.

Lemma probes_inv (p : Model * Field) :
  p ∈ probes → p = (User, Femail) ∨ p.1 ≠ User.
Proof.
  unfold probes. rewrite !elem_of_cons, elem_of_nil.
  intros [->|[->|[->|[->|[->|[->|[]]]]]]]; auto.
Qed.

Ltac probe_cases db username password r :=
  unfold probe_outcome, run_probe, probe_query, verify; cbn [fst snd]; run;
  destruct (select db _ _ (PyStr username)) as [|r [|? ?]]; cbn;
  try destruct (check_password r password); cbn.

Lemma run_probe_fails (db : Database) (p : Model * Field) (username password : string) :
  p ∈ probes → fails (probe_outcome db p username password) →
  run_probe db p username password = ([probe_query username p], Return None).
Proof.
  intros [->|Hne]%probes_inv; [|destruct p as [[] f]; try done];
    probe_cases db username password r; by intros.
Qed.

Lemma run_probe_verified (db : Database) (p : Model * Field) (username password : string)
    (i : Instance) :
  p ∈ probes → probe_outcome db p username password = Verified i →
  run_probe db p username password = ([probe_query username p], Return (Some i)).
Proof.
  intros [->|Hne]%probes_inv; [|destruct p as [[] f]; try done];
    probe_cases db username password r; intros Ho; by (discriminate Ho || injection Ho as <-).
Qed.

Lemma search_verified (db : Database) (ps : list (Model * Field)) (username password : string) :
  ∀ (n : nat) (p : Model * Field) (i : Instance),
    (∀ q, q ∈ ps → q ∈ probes) →
    ps !! n = Some p →
    (∀ q, q ∈ take n ps → fails (probe_outcome db q username password)) →
    probe_outcome db p username password = Verified i →
    search db ps username password
      = (probe_query username <$> take (S n) ps, Return (Some i)).
Proof.
  induction ps as [|p0 ps IH]; intros n p i Hsub Hn Hbefore Hv; [done|].
  cbn [search]. destruct n as [|n]; cbn in Hn.
  - injection Hn as ->.
    rewrite (run_probe_verified _ _ _ _ i) by (try done; apply Hsub; by left).
    by run.
  - rewrite run_probe_fails.
    + rewrite (IH n p i); try done.
      * intros q Hq. apply Hsub. by right.
      * intros q Hq. apply Hbefore. cbn. by right.
    + apply Hsub. by left.
    + apply Hbefore. cbn. by left.
Qed.

Lemma search_exhausted (db : Database) (ps : list (Model * Field)) (username password : string) :
  (∀ q, q ∈ ps → q ∈ probes) →
  (∀ q, q ∈ ps → fails (probe_outcome db q username password)) →
  search db ps username password = (probe_query username <$> ps, Return None).
Proof.
  induction ps as [|p0 ps IH]; intros Hsub Hall; [done|].
  cbn [search]. rewrite run_probe_fails.
  - rewrite IH; [done| |].
    + intros q Hq. apply Hsub. by right.
    + intros q Hq. apply Hall. by right.
  - apply Hsub. by left.
  - apply Hall. by left.
Qed.

(** C3: [authenticate] makes the six probes (Admin, email), (Staff, phone),
    (Staff, email), (Parent, phone), (Student, phone), (Student, email) in
    that order. A probe that finds no record, or a record whose secret does
    not verify, hands over to the next one; the first probe whose secret
    verifies returns its record and no later query is issued; when all six
    fail the answer is [None]. So when a staff member and a parent share a
    phone number and both secrets match, the staff member is returned. *)
Theorem authenticate_probe_order (db : Database) (username password : string) :
  probes = [(User, Femail); (Staff, Fphone); (Staff, Femail);
            (Parent, Fphone); (Student, Fphone); (Student, Femail)]
  ∧ (∀ (n : nat) (p : Model * Field) (i : Instance),
       probes !! n = Some p →
       (∀ q, q ∈ take n probes → fails (probe_outcome db q username password)) →
       probe_outcome db p username password = Verified i →
       authenticate db (Some username) (Some password)
         = (probe_query username <$> take (S n) probes, Return (Some i)))
  ∧ ((∀ q, q ∈ probes → fails (probe_outcome db q username password)) →
     authenticate db (Some username) (Some password)
       = (probe_query username <$> probes, Return None))
  ∧ (∀ s p : Instance,
       fails (probe_outcome db (User, Femail) username password) →
       probe_outcome db (Staff, Fphone) username password = Verified s →
       probe_outcome db (Parent, Fphone) username password = Verified p →
       authenticate db (Some username) (Some password)
         = ([QGet User Femail (PyStr username);
             QFilterFirst Staff Fphone (PyStr username)], Return (Some s))).
Proof.
  rewrite authenticate_search.
  split; [done|]. split; [|split].
  - intros n p i. by apply search_verified.
  - by apply search_exhausted.
  - intros s p Hadmin Hstaff _.
    rewrite (search_verified db probes _ _ 1%nat (Staff, Fphone) s); try done.
    intros q Hq. cbn in Hq. by apply list_elem_of_singleton in Hq as ->.
Qed.

Lemma authenticate_probe_order_witness :
  authenticate Sample.school (Some "5550002") (Some "t34ch")
    = ([QGet User Femail (PyStr "5550002");
        QFilterFirst Staff Fphone (PyStr "5550002")],
       Return (Some (from_db Staff Sample.teacher)))
  ∧ authenticate Sample.school (Some "clerk@school.org") (Some "cl3rk")
    = ([QGet User Femail (PyStr "clerk@school.org");
        QFilterFirst Staff Fphone (PyStr "clerk@school.org");
        QFilterFirst Staff Femail (PyStr "clerk@school.org")],
       Return (Some (from_db Staff Sample.clerk)))
  ∧ authenticate Sample.school (Some "5550003") (Some "wrong")
    = (probe_query "5550003" <$> probes, Return None).
Proof.
  split; [|split].
  - apply (proj2 (proj2 (proj2
      (authenticate_probe_order Sample.school "5550002" "t34ch")))
      (from_db Staff Sample.teacher) (from_db Parent Sample.mother));
      by vm_compute.
  - apply (proj1 (proj2
      (authenticate_probe_order Sample.school "clerk@school.org" "cl3rk"))
      2%nat (Staff, Femail) (from_db Staff Sample.clerk)); [done| |by vm_compute].
    intros q Hq. cbn in Hq.
    apply elem_of_cons in Hq as [->|Hq]; [by vm_compute|].
    apply list_elem_of_singleton in Hq as ->. by vm_compute.
  - apply (proj1 (proj2 (proj2
      (authenticate_probe_order Sample.school "5550003" "wrong")))).
    intros q Hq. unfold probes in Hq.
    repeat (apply elem_of_cons in Hq as [->|Hq]; [by vm_compute|]).
    by apply elem_of_nil in Hq.
Defined.

(** ** Missing and empty credentials *)

Lemma probe_admin_head (db : Database) (username password : string) :
  ∃ log res,
    probe_admin db username password = (QGet User Femail (PyStr username) :: log, res).
Proof.
  run. destruct (select db User Femail (PyStr username)) as [|r [|r' rows]]; cbn.
  - case_decide; eauto.
  - destruct (check_password r password); cbn; eauto.
  - case_decide; eauto.
Qed.

Lemma or_else_head (q : Query) (log : list Query) (res : Result (option Instance))
    (b : M (option Instance)) :
  ∃ log' res', or_else (q :: log, res) b = (q :: log', res').
Proof.
  run. destruct res as [[i|]|e]; cbn; [eauto| |eauto].
  destruct b as [log' res']. eauto.
Qed.

(** C4, as the spec words it, fails for the empty string: the guard tests
    for [None] only. With an empty identifier the admin table is queried,
    and an administrator registered with an empty address is even returned;
    with an empty secret all six lookups run. *)
Lemma authenticate_empty_string_counterexample :
  authenticate Sample.crowded (Some "") (Some "gh0st")
    = ([QGet User Femail (PyStr "")], Return (Some (from_db User Sample.ghost)))
  ∧ authenticate Sample.school (Some "5550003") (Some "")
    = (probe_query "5550003" <$> probes, Return None)
  ∧ ¬ (∀ db username password,
         username = None ∨ username = Some "" ∨ password = None ∨ password = Some "" →
         authenticate db username password = ([], Return None)).
Proof.
  split; [by vm_compute|]. split; [by vm_compute|].
  intros Hclaim.
  specialize (Hclaim Sample.crowded (Some "") (Some "gh0st")).
  assert (Hrun : authenticate Sample.crowded (Some "") (Some "gh0st")
                   = ([QGet User Femail (PyStr "")],
                      Return (Some (from_db User Sample.ghost)))) by by vm_compute.
  rewrite Hrun in Hclaim. by discriminate Hclaim; auto.
Qed.

(** C4, amended: when the identifier or the secret is missing ([None]),
    [authenticate] answers [None] and issues no query. A value that is
    present, the empty string included, is not short-circuited: the search
    starts with the lookup on the admin table. *)
Theorem authenticate_missing_argument (db : Database) (username password : option string) :
  (username = None ∨ password = None →
   authenticate db username password = ([], Return None))
  ∧ (∀ u pw, username = Some u → password = Some pw →
     ∃ rest res,
       authenticate db username password = (QGet User Femail (PyStr u) :: rest, res)).
Proof.
  split.
  - intros [->| ->]; [done|by destruct username].
  - intros u pw -> ->. cbn [authenticate].
    destruct (probe_admin_head db u pw) as (log & res & ->).
    by apply or_else_head.
Qed.

Lemma authenticate_missing_argument_witness :
  authenticate Sample.school None (Some "r00t") = ([], Return None)
  ∧ authenticate Sample.school (Some "root@school.org") None = ([], Return None)
  ∧ ∃ rest res, authenticate Sample.school (Some "") (Some "")
                  = (QGet User Femail (PyStr "") :: rest, res).
Proof.
  split; [|split].
  - apply (proj1 (authenticate_missing_argument Sample.school None (Some "r00t"))).
    by left.
  - apply (proj1 (authenticate_missing_argument Sample.school
                    (Some "root@school.org") None)).
    by right.
  - by apply (proj2 (authenticate_missing_argument Sample.school (Some "") (Some ""))
               "" "").
Defined.

(** ** When [authenticate] raises *)

Lemma probe_first_match (db : Database) (m : Model) (f : Field) (username password : string) :
  probe db m f username password
    = ([QFilterFirst m f (PyStr username)],
       Return (match head (select db m f (PyStr username)) with
               | Some r => if check_password r password then Some (from_db m r) else None
               | None => None
               end)).
Proof.
  run. destruct (select db m f (PyStr username)) as [|r rows]; cbn; [done|].
  by destruct (check_password r password).
Qed.

Lemma or_else_returns (a b : M (option Instance)) :
  returns a → returns b → returns (or_else a b).
Proof.
  intros (la & ra & ->) (lb & rb & ->). run.
  destruct ra as [i|]; cbn; by eexists _, _.
Qed.

Lemma probe_returns (db : Database) (m : Model) (f : Field) (username password : string) :
  returns (probe db m f username password).
Proof. rewrite probe_first_match. by eexists _, _. Qed.

Lemma probe_admin_returns (db : Database) (username password : string) :
  (length (select db User Femail (PyStr username)) ≤ 1)%nat →
  returns (probe_admin db username password).
Proof.
  intros Hlen. run.
  destruct (select db User Femail (PyStr username)) as [|r [|r' rows]]; cbn in *.
  - rewrite decide_True by (by apply list_elem_of_singleton). by eexists _, _.
  - destruct (check_password r password); by eexists _, _.
  - lia.
Qed.

Lemma probe_admin_raises (db : Database) (username password : string) :
  (2 ≤ length (select db User Femail (PyStr username)))%nat →
  probe_admin db username password
    = ([QGet User Femail (PyStr username)], Raise (MultipleObjectsReturned User)).
Proof.
  intros Hlen. run.
  destruct (select db User Femail (PyStr username)) as [|r [|r' rows]]; cbn in *;
    [lia|lia|].
  rewrite decide_False; [done|].
  by intros [=]%list_elem_of_singleton.
Qed.

(** C10: [authenticate] ends with a value whenever at most one administrator
    has the given address. The admin lookup handles the not-found case only:
    with two or more administrators sharing the address the method raises
    [MultipleObjectsReturned] after that first query. Several staff members,
    parents or students matching never raise: those probes take the first
    matching row of the table. *)
Theorem authenticate_raises_only_on_duplicate_admin (db : Database) :
  (∀ username password,
     (∀ u, username = Some u → (length (select db User Femail (PyStr u)) ≤ 1)%nat) →
     returns (authenticate db username password))
  ∧ (∀ u pw,
     (2 ≤ length (select db User Femail (PyStr u)))%nat →
     authenticate db (Some u) (Some pw)
       = ([QGet User Femail (PyStr u)], Raise (MultipleObjectsReturned User)))
  ∧ (∀ m f u pw r rest,
     select db m f (PyStr u) = r :: rest →
     probe db m f u pw
       = ([QFilterFirst m f (PyStr u)],
          Return (if check_password r pw then Some (from_db m r) else None))).
Proof.
  split; [|split].
  - intros [u|] [pw|] Hlen; try by eexists _, _.
    cbn [authenticate].
    apply or_else_returns; [by apply probe_admin_returns, Hlen|].
    repeat (apply or_else_returns; [apply probe_returns|]).
    by eexists _, _.
  - intros u pw Hlen. cbn [authenticate].
    rewrite probe_admin_raises by done. by run.
  - intros m f u pw r rest Hsel. by rewrite probe_first_match, Hsel.
Qed.

Lemma authenticate_raises_only_on_duplicate_admin_witness :
  returns (authenticate Sample.crowded (Some "5550001") (Some "cl3rk2"))
  ∧ authenticate Sample.crowded (Some "root@school.org") (Some "d3puty")
    = ([QGet User Femail (PyStr "root@school.org")],
       Raise (MultipleObjectsReturned User))
  ∧ probe Sample.crowded Staff Fphone "5550001" "cl3rk2"
    = ([QFilterFirst Staff Fphone (PyStr "5550001")], Return None).
Proof.
  split; [|split].
  - apply (proj1 (authenticate_raises_only_on_duplicate_admin Sample.crowded)).
    intros u Hu. injection Hu as <-. vm_compute. lia.
  - apply (proj1 (proj2 (authenticate_raises_only_on_duplicate_admin Sample.crowded))).
    vm_compute. lia.
  - apply (proj2 (proj2 (authenticate_raises_only_on_duplicate_admin Sample.crowded))
             Staff Fphone "5550001" "cl3rk2" Sample.clerk
             [Sample.row 3 None (Some "5550001") "cl3rk2"]).
    by vm_compute.
Defined.

(** ** Group permissions and their cache *)

Lemma collect_perms_run (groups : list Group) (perms : gset string) :
  ∃ result,
    collect_perms groups perms
      = ((λ g, QPermissionsValuesList (group_pk g)) <$> groups, Return result)
    ∧ ∀ s, s ∈ result ↔
           s ∈ perms ∨ ∃ g ct name,
             g ∈ groups ∧ (ct, name) ∈ permissions g ∧ s = ct +:+ "." +:+ name.
Proof.
  revert perms. induction groups as [|g groups IH]; intros perms.
  - exists perms. split; [done|]. intros s. split; [by left|].
    intros [?|(g & ? & ? & []%elem_of_nil & _)]. done.
  - destruct (IH (perms ∪ list_to_set (perm_string <$> permissions g)))
      as (result & Hrun & Hmem).
    exists result. split.
    + cbn [collect_perms]. run. by rewrite Hrun.
    + intros s. rewrite Hmem, elem_of_union, elem_of_list_to_set, list_elem_of_fmap.
      split.
      * intros [[?|([ct name] & -> & Hin)]|(g' & ct & name & Hg' & Hin & ->)].
        -- by left.
        -- right. exists g, ct, name. split; [by left|done].
        -- right. exists g', ct, name. split; [by right|done].
      * intros [?|(g' & ct & name & Hg' & Hin & ->)]; [by left; left|].
        apply elem_of_cons in Hg' as [->|Hg'].
        -- left. right. by exists (ct, name).
        -- right. by exists g', ct, name.
Qed.

Section PermissionProperties.
Context `{ModelBackend}.

Lemma guard_denied (user_obj : UserObj) (obj : PyVal) :
  denied user_obj obj →
  negb (user_is_active user_obj) || user_is_anonymous user_obj
    || bool_decide (obj ≠ PyNone) = true.
Proof.
  intros [Hact|[Hanon|Hobj]].
  - by rewrite Hact.
  - rewrite Hanon. by destruct (user_is_active user_obj).
  - rewrite (bool_decide_eq_true_2 _ Hobj). apply orb_true_r.
Qed.

Lemma get_all_permissions_denied (db : Database) (user_obj : UserObj) (obj : PyVal) :
  denied user_obj obj → get_all_permissions db user_obj obj = ([], Return (∅, user_obj)).
Proof. intros Hd. unfold get_all_permissions. by rewrite guard_denied. Qed.

(** C7: for an active, non-anonymous staff member or student and no
    object, the first [get_group_permissions] asks for the groups and for
    each group's permissions, returns exactly the strings
    [app_label.codename] granted by some group of the user, and stores
    that set on the instance; every later call on that instance returns
    the stored set and issues no query, whatever the database then
    holds. *)
Theorem get_group_permissions_cached (db : Database) (i : Instance) :
  cls i = Staff ∨ cls i = Student →
  is_active (fields i) = true →
  is_anonymous i = false →
  _group_perm_cache i = None →
  ∃ perms : gset string,
    get_group_permissions db (Obj i) PyNone
      = (QGroupsAll (cls i) (pk (fields i))
           :: ((λ g, QPermissionsValuesList (group_pk g))
                 <$> groups_all db (cls i) (pk (fields i))),
         Return (perms, Obj (set_group_perm_cache i perms)))
    ∧ (∀ s, s ∈ perms ↔
            ∃ g ct name,
              g ∈ groups_all db (cls i) (pk (fields i))
              ∧ (ct, name) ∈ permissions g ∧ s = ct +:+ "." +:+ name)
    ∧ (∀ db', get_group_permissions db' (Obj (set_group_perm_cache i perms)) PyNone
              = ([], Return (perms, Obj (set_group_perm_cache i perms)))).
Proof.
  intros Hcls Hact Hanon Hcache.
  destruct (collect_perms_run (groups_all db (cls i) (pk (fields i))) ∅)
    as (perms & Hrun & Hmem).
  assert (Hkind : is_staff_or_student (Obj i) = true)
    by (cbn; by destruct Hcls as [-> | ->]).
  exists perms. split; [|split].
  - unfold get_group_permissions. cbn [user_is_active user_is_anonymous].
    rewrite Hact, Hanon, Hkind, Hcache. cbn [negb orb bool_decide].
    rewrite bool_decide_eq_false_2 by (by intros ?). cbn.
    run. by rewrite Hrun, app_nil_r.
  - intros s. rewrite Hmem. split; [|by right].
    by intros [[]%not_elem_of_empty|?].
  - intros db'. unfold get_group_permissions.
    cbn [user_is_active user_is_anonymous set_group_perm_cache fields is_anonymous].
    rewrite Hact, Hanon. cbn [negb orb].
    rewrite bool_decide_eq_false_2 by (by intros ?). cbn.
    by destruct Hcls as [-> | ->].
Qed.

(** C8: for an inactive user, for an anonymous one, and whenever an object
    is given, [get_group_permissions] and [get_all_permissions] return the
    empty set and [has_perm] returns [False], with no query, whatever the
    groups grant. *)
Theorem permissions_denied (db : Database) (user_obj : UserObj) (perm : string)
    (obj : PyVal) :
  denied user_obj obj →
  get_group_permissions db user_obj obj = ([], Return (∅, user_obj))
  ∧ get_all_permissions db user_obj obj = ([], Return (∅, user_obj))
  ∧ has_perm db user_obj perm obj = ([], Return (false, user_obj)).
Proof.
  intros Hd. split; [|split].
  - unfold get_group_permissions. by rewrite guard_denied.
  - by apply get_all_permissions_denied.
  - unfold has_perm, ModelBackend_has_perm.
    destruct (user_is_active user_obj) eqn:Hact; cbn [negb]; [|done].
    rewrite get_all_permissions_denied by done.
    by destruct (is_staff_or_student user_obj).
Qed.

End PermissionProperties.

Lemma get_group_permissions_cached_witness :
  let pupil := from_db Student Sample.pupil in
  ∃ perms : gset string,
    @get_group_permissions Sample.django Sample.school (Obj pupil) PyNone
      = ([QGroupsAll Student 1; QPermissionsValuesList 1; QPermissionsValuesList 2],
         Return (perms, Obj (set_group_perm_cache pupil perms)))
    ∧ (∀ s, s ∈ perms ↔
            ∃ g ct name,
              g ∈ [Sample.G1; Sample.G2]
              ∧ (ct, name) ∈ permissions g ∧ s = ct +:+ "." +:+ name)
    ∧ (∀ db', @get_group_permissions Sample.django db'
                (Obj (set_group_perm_cache pupil perms)) PyNone
              = ([], Return (perms, Obj (set_group_perm_cache pupil perms)))).
Proof.
  apply (@get_group_permissions_cached Sample.django Sample.school
           (from_db Student Sample.pupil)); [by right|done|done|done].
Defined.

(** The pupil of the sample school is in the groups G1 and G2: two calls,
    one round of queries. *)
Example pupil_group_permissions :
  let pupil := from_db Student Sample.pupil in
  let perms : gset string := {[ "app.view_x"; "app.edit_y" ]} in
  @get_group_permissions Sample.django Sample.school (Obj pupil) PyNone
    = ([QGroupsAll Student 1; QPermissionsValuesList 1; QPermissionsValuesList 2],
       Return (perms, Obj (set_group_perm_cache pupil perms)))
  ∧ @get_group_permissions Sample.django Sample.school
      (Obj (set_group_perm_cache pupil perms)) PyNone
    = ([], Return (perms, Obj (set_group_perm_cache pupil perms))).
Proof. split; by vm_compute. Qed.

Lemma permissions_denied_witness :
  let teacher := Obj (from_db Staff Sample.teacher) in
  @get_group_permissions Sample.django Sample.school teacher (PyInt 7)
    = ([], Return (∅, teacher))
  ∧ @get_all_permissions Sample.django Sample.school teacher (PyInt 7)
    = ([], Return (∅, teacher))
  ∧ @has_perm Sample.django Sample.school teacher "app.view_x" (PyInt 7)
    = ([], Return (false, teacher)).
Proof.
  apply (@permissions_denied Sample.django Sample.school
           (Obj (from_db Staff Sample.teacher)) "app.view_x" (PyInt 7)).
  right; right. discriminate.
Defined.

(** * Further properties *)

(** ** What [authenticate] can return *)

Lemma elem_of_select (db : Database) (m : Model) (f : Field) (v : PyVal) (r : Row) :
  r ∈ select db m f v ↔ r ∈ objects db m ∧ column f r = v.
Proof.
  unfold select, matches.
  rewrite !list_elem_of_In, List.filter_In, bool_decide_eq_true. done.
Qed.

Lemma column_str (f : Field) (r : Row) (s : string) :
  column f r = PyStr s →
  match f with Fpk => False | Femail => email r = Some s | Fphone => phone r = Some s end.
Proof.
  destruct f; cbn; [done| |].
  - destruct (email r); cbn; by intros [= ->].
  - destruct (phone r); cbn; by intros [= ->].
Qed.

Lemma probe_Some (db : Database) (m : Model) (f : Field) (username password : string)
    (log : list Query) (i : Instance) :
  probe db m f username password = (log, Return (Some i)) →
  ∃ r, r ∈ objects db m ∧ i = from_db m r ∧ check_password r password = true
       ∧ column f r = PyStr username.
Proof.
  rewrite probe_first_match.
  destruct (select db m f (PyStr username)) as [|r rows] eqn:Hsel; cbn; [done|].
  destruct (check_password r password) eqn:Hpw; [|done].
  intros [= _ <-]. exists r.
  assert (Hin : r ∈ select db m f (PyStr username)) by (rewrite Hsel; by left).
  apply elem_of_select in Hin as [Hin Hcol]. done.
Qed.

Lemma probe_admin_Some (db : Database) (username password : string)
    (log : list Query) (i : Instance) :
  probe_admin db username password = (log, Return (Some i)) →
  ∃ r, r ∈ objects db User ∧ i = from_db User r ∧ check_password r password = true
       ∧ column Femail r = PyStr username.
Proof.
  run. destruct (select db User Femail (PyStr username)) as [|r [|r' rows]] eqn:Hsel; cbn.
  - case_decide; by intros [=].
  - destruct (check_password r password) eqn:Hpw; cbn; [|by intros [=]].
    intros [= _ <-]. exists r.
    assert (Hin : r ∈ select db User Femail (PyStr username)) by (rewrite Hsel; by left).
    apply elem_of_select in Hin as [Hin Hcol]. done.
  - case_decide; by intros [=].
Qed.

Lemma or_else_Some (a b : M (option Instance)) (log : list Query) (i : Instance) :
  or_else a b = (log, Return (Some i)) →
  (∃ l, a = (l, Return (Some i))) ∨ (∃ l, b = (l, Return (Some i))).
Proof.
  destruct a as [la [[j|]|e]], b as [lb rb]; run; intros [= Hl Hr].
  - left. exists la. by subst.
  - right. exists lb. by subst.
Qed.

Lemma authenticate_credentials (db : Database) (username password : string)
    (log : list Query) (i : Instance) :
  authenticate db (Some username) (Some password) = (log, Return (Some i)) →
  credentials_of db username password i.
Proof.
  cbn [authenticate]. unfold credentials_of. intros Ha.
  apply or_else_Some in Ha as [[? Ha]|[? Ha]];
    [apply probe_admin_Some in Ha as (r & Hin & -> & Hpw & Hcol)|].
  2: repeat (apply or_else_Some in Ha as [[? Ha']|[? Ha]];
      [apply probe_Some in Ha' as (r & Hin & -> & Hpw & Hcol)|]).
  all: try discriminate Ha.
  all: apply column_str in Hcol; exists r; cbn; auto.
Qed.

(** X1: whatever [authenticate] returns is a freshly loaded row of one of
    the four tables whose secret verifies for the given password and which
    carries the identifier: as its email for an administrator, as its phone
    for a parent, as its phone or its email for a staff member or a
    student. *)
Theorem authenticate_sound (db : Database) (username password : option string)
    (log : list Query) (i : Instance) :
  authenticate db username password = (log, Return (Some i)) →
  ∃ u pw, username = Some u ∧ password = Some pw ∧ credentials_of db u pw i.
Proof.
  destruct username as [u|], password as [pw|]; try by intros [=].
  intros Hrun. exists u, pw. eauto using authenticate_credentials.
Qed.

Lemma authenticate_sound_witness :
  ∃ u pw, Some "5550002" = Some u ∧ Some "t34ch" = Some pw
          ∧ credentials_of Sample.school u pw (from_db Staff Sample.teacher).
Proof.
  apply (authenticate_sound Sample.school (Some "5550002") (Some "t34ch")
           [QGet User Femail (PyStr "5550002");
            QFilterFirst Staff Fphone (PyStr "5550002")]).
  by vm_compute.
Defined.

(** ** The queries of [authenticate] *)

Lemma run_probe_log (db : Database) (p : Model * Field) (username password : string) :
  p ∈ probes →
  ∃ res, run_probe db p username password = ([probe_query username p], res).
Proof.
  intros [->|Hne]%probes_inv; [|destruct p as [[] f]; try done];
    unfold run_probe, probe_query; cbn [fst snd]; try rewrite probe_first_match; eauto.
  run. destruct (select db User Femail (PyStr username)) as [|r [|r' rows]]; cbn;
    try case_decide; try destruct (check_password r password); cbn; eauto.
Qed.

Lemma search_log (db : Database) (ps : list (Model * Field)) (username password : string) :
  (∀ q, q ∈ ps → q ∈ probes) → ps ≠ [] →
  ∃ n, (1 ≤ n ≤ length ps)%nat
       ∧ (search db ps username password).1 = probe_query username <$> take n ps.
Proof.
  induction ps as [|p ps IH]; intros Hsub Hne; [done|].
  destruct (run_probe_log db p username password) as (res & Hp);
    [apply Hsub; by left|].
  cbn [search]. rewrite Hp.
  destruct res as [[i|]|e]; run.
  - exists 1%nat. cbn. split; [lia|done].
  - destruct ps as [|p' ps'].
    + exists 1%nat. cbn. split; [lia|done].
    + destruct IH as (n & Hn & Hlog); [intros q Hq; apply Hsub; by right|done|].
      exists (S n). split; [cbn in *; lia|].
      destruct (search db (p' :: ps') username password) as [l r].
      cbn in Hlog. cbn. by rewrite Hlog.
  - exists 1%nat. cbn. split; [lia|done].
Qed.

(** X2: whatever the tables hold and however the call ends, [authenticate]
    with both arguments present issues between one and six queries, and
    they are the first queries of the fixed probe sequence, in order: no
    table is queried twice on one field, the admin table is never searched
    by phone and the parent table never by email. *)
Theorem authenticate_queries (db : Database) (username password : string) :
  ∃ n, (1 ≤ n ≤ 6)%nat
       ∧ (authenticate db (Some username) (Some password)).1
         = probe_query username <$> take n probes.
Proof.
  rewrite authenticate_search.
  by apply (search_log db probes username password).
Qed.

(** ** The [is_active] column and the lookups *)

Lemma select_set_is_active (act : Row → bool) (db : Database) (m : Model)
    (f : Field) (v : PyVal) :
  select (db_set_is_active act db) m f v = set_is_active act <$> select db m f v.
Proof.
  unfold select.
  replace (objects (db_set_is_active act db) m)
    with (set_is_active act <$> objects db m) by by destruct m.
  induction (objects db m) as [|r rows IH]; [done|].
  cbn. replace (matches f v (set_is_active act r)) with (matches f v r)
    by by destruct f.
  destruct (matches f v r); cbn; by rewrite IH.
Qed.

Lemma or_else_map_result (g : Instance → Instance) (a b : M (option Instance)) :
  or_else (map_result (fmap g) a) (map_result (fmap g) b)
    = map_result (fmap g) (or_else a b).
Proof. destruct a as [la [[i|]|e]], b as [lb [rb|eb]]; by run. Qed.

Lemma probe_set_is_active (act : Row → bool) (db : Database) (m : Model) (f : Field)
    (username password : string) :
  probe (db_set_is_active act db) m f username password
    = map_result (fmap (instance_set_is_active act)) (probe db m f username password).
Proof.
  rewrite !probe_first_match, select_set_is_active.
  destruct (select db m f (PyStr username)) as [|r rows]; cbn; [done|].
  by destruct (check_password r password).
Qed.

Lemma probe_admin_set_is_active (act : Row → bool) (db : Database)
    (username password : string) :
  probe_admin (db_set_is_active act db) username password
    = map_result (fmap (instance_set_is_active act)) (probe_admin db username password).
Proof.
  run. rewrite select_set_is_active.
  destruct (select db User Femail (PyStr username)) as [|r [|r' rows]]; cbn.
  - by case_decide.
  - by destruct (check_password r password).
  - by case_decide.
Qed.

Lemma get_or_set_is_active (act : Row → bool) (db : Database) (m : Model) (id : Z)
    (otherwise : M (option Instance)) :
  get_or (db_set_is_active act db) m id
      (map_result (fmap (instance_set_is_active act)) otherwise)
    = map_result (fmap (instance_set_is_active act)) (get_or db m id otherwise).
Proof.
  run. rewrite select_set_is_active.
  destruct (select db m Fpk (PyInt id)) as [|r [|r' rows]]; cbn; [|done|].
  - case_decide; [|done]. by destruct otherwise as [l [o|e]].
  - case_decide; [|done]. by destruct otherwise as [l [o|e]].
Qed.

Lemma get_user_fallback_set_is_active (act : Row → bool) (db : Database)
    (order : list Model) (id : Z) :
  get_user_fallback (db_set_is_active act db) order id
    = map_result (fmap (instance_set_is_active act)) (get_user_fallback db order id).
Proof.
  induction order as [|m order IH]; [done|].
  cbn [get_user_fallback]. by rewrite IH, get_or_set_is_active.
Qed.

(** X3: neither [authenticate] nor [get_user] looks at [is_active].
    Rewriting that column in every table changes nothing but the column of
    the returned record: the same queries, the same row, the same
    exception. A deactivated account whose secret verifies is returned like
    any other. *)
Theorem lookups_ignore_is_active `{Interpreter} (act : Row → bool) (db : Database) :
  (∀ username password,
     authenticate (db_set_is_active act db) username password
       = map_result (fmap (instance_set_is_active act))
           (authenticate db username password))
  ∧ (∀ request user_id,
       get_user (db_set_is_active act db) request user_id
         = map_result (fmap (instance_set_is_active act))
             (get_user db request user_id)).
Proof.
  split.
  - intros [u|] [pw|]; try done. cbn [authenticate].
    rewrite probe_admin_set_is_active, !probe_set_is_active.
    change (mret None : M (option Instance))
      with (map_result (fmap (instance_set_is_active act)) (mret None)).
    by rewrite !or_else_map_result.
  - intros request raw. unfold get_user. case_decide; [done|].
    destruct (try_except _ _ _) as [l [[id|]|e]]; try done.
    assert (Hrest :
      match session_model request with
      | Some model => get_or (db_set_is_active act db) model id (mret None)
      | None => get_user_fallback (db_set_is_active act db) _GET_USER_ORDER id
      end
      = map_result (fmap (instance_set_is_active act))
          match session_model request with
          | Some model => get_or db model id (mret None)
          | None => get_user_fallback db _GET_USER_ORDER id
          end).
    { destruct (session_model request) as [m|].
      - change (mret None : M (option Instance))
          with (map_result (fmap (instance_set_is_active act)) (mret None)).
        apply get_or_set_is_active.
      - apply get_user_fallback_set_is_active. }
    unfold mbind, M_bind. rewrite Hrest. clear Hrest.
    by destruct (match session_model request with
                 | Some model => get_or db model id (mret None)
                 | None => get_user_fallback db _GET_USER_ORDER id
                 end) as [l' [o|e]].
Qed.

(** ** What [get_user] can return, and when it raises *)

Lemma get_or_cases (db : Database) (m : Model) (id : Z) (otherwise : M (option Instance)) :
  (select db m Fpk (PyInt id) = []
   ∧ get_or db m id otherwise
     = (let '(log, res) := otherwise in (QGet m Fpk (PyInt id) :: log, res)))
  ∨ (∃ r, select db m Fpk (PyInt id) = [r]
          ∧ get_or db m id otherwise
            = ([QGet m Fpk (PyInt id)], Return (Some (from_db m r))))
  ∨ (∃ r r' rows, select db m Fpk (PyInt id) = r :: r' :: rows
          ∧ get_or db m id otherwise
            = ([QGet m Fpk (PyInt id)], Raise (MultipleObjectsReturned m))).
Proof.
  run. destruct (select db m Fpk (PyInt id)) as [|r [|r' rows]]; cbn.
  - left. split; [done|].
    rewrite decide_True by (by apply list_elem_of_singleton).
    by destruct otherwise.
  - right; left. by exists r.
  - right; right. exists r, r', rows. split; [done|].
    rewrite decide_False; [done|]. by intros [=]%list_elem_of_singleton.
Qed.

Lemma select_pk_singleton (db : Database) (m : Model) (id : Z) (r : Row) (rows : list Row) :
  select db m Fpk (PyInt id) = r :: rows → r ∈ objects db m ∧ pk r = id.
Proof.
  intros Hsel.
  assert (Hin : r ∈ select db m Fpk (PyInt id)) by (rewrite Hsel; by left).
  apply elem_of_select in Hin as [Hin Hcol]. split; [done|].
  by injection Hcol.
Qed.

Lemma select_pk_two (db : Database) (m : Model) (id : Z) (r r' : Row) (rows : list Row) :
  select db m Fpk (PyInt id) = r :: r' :: rows → ¬ NoDup (pk <$> objects db m).
Proof.
  intros Hsel Hnd.
  destruct (select_pk_singleton _ _ _ _ _ Hsel) as [Hin <-].
  by rewrite (select_pk_unique db m r Hnd Hin) in Hsel.
Qed.

Lemma py_int_cases `{Interpreter} (raw : PyVal) :
  (∃ id, py_int raw = mret id) ∨ (∃ e, py_int raw = raise e).
Proof.
  destruct raw as [|b|n|x|s|[n|e]]; cbn.
  - right. by exists TypeError.
  - left. by eexists.
  - left. by exists n.
  - destruct (int_of_float x) as [n|e]; [left; by exists n|right; by exists e].
  - destruct (int_of_str s) as [n|]; cbn; [left; by exists n|right; by exists ValueError].
  - left. by exists n.
  - right. by exists e.
Qed.

Lemma get_user_cases `{Interpreter} (db : Database) (request : option Request) (raw : PyVal) :
  get_user db request raw = ([], Return None)
  ∨ (∃ id, py_int raw = mret id
           ∧ get_user db request raw
             = match session_model request with
               | Some model => get_or db model id (mret None)
               | None => get_user_fallback db _GET_USER_ORDER id
               end)
  ∨ (∃ e, raw ≠ PyNone ∧ py_int raw = raise e ∧ e ≠ TypeError ∧ e ≠ ValueError
          ∧ get_user db request raw = ([], Raise e)).
Proof.
  destruct (py_int_cases raw) as [[id Hid]|[e He]].
  - right; left. exists id. split; [done|]. by apply get_user_parsed.
  - unfold get_user. case_decide; [by left|].
    rewrite He. run.
    case_decide as Hin; [by left|].
    right; right. exists e. repeat split; try done.
    + intros ->. apply Hin. by left.
    + intros ->. apply Hin. right. by left.
Qed.

Lemma get_user_fallback_Some (db : Database) (order : list Model) (id : Z)
    (log : list Query) (i : Instance) :
  get_user_fallback db order id = (log, Return (Some i)) →
  ∃ m r, m ∈ order ∧ r ∈ objects db m ∧ pk r = id ∧ i = from_db m r.
Proof.
  revert log. induction order as [|m order IH]; intros log; [by intros [=]|].
  cbn [get_user_fallback].
  destruct (get_or_cases db m id (get_user_fallback db order id))
    as [[_ ->]|[(r & Hsel & ->)|(r & r' & rows & _ & ->)]].
  - destruct (get_user_fallback db order id) as [l res].
    intros [= _ ->]. destruct (IH l eq_refl) as (m' & r & Hm' & Hr).
    exists m', r. split; [by right|done].
  - intros [= _ <-]. apply select_pk_singleton in Hsel as [Hin Hpk].
    exists m, r. split; [by left|done].
  - by intros [=].
Qed.


(** X4: whatever [get_user] returns is a freshly loaded row of one of the
    four tables whose primary key is the number the argument parses to; when
    the session carries a label of [_USER_MODEL_MAP], the row is of the
    model that label names. *)
Theorem get_user_sound `{Interpreter} (db : Database) (request : option Request) (raw : PyVal)
    (log : list Query) (i : Instance) :
  get_user db request raw = (log, Return (Some i)) →
  ∃ id r,
    py_int raw = mret id ∧ r ∈ objects db (cls i) ∧ pk r = id ∧ i = from_db (cls i) r
    ∧ ∀ sess tag m,
        request = Some {| session := Some sess |} →
        sess !! "_auth_user_model" = Some tag →
        _USER_MODEL_MAP !! tag = Some m →
        cls i = m.
Proof.
  destruct (get_user_cases db request raw)
    as [->|[(id & Hid & ->)|(e & _ & _ & _ & _ & ->)]]; [by intros [=]| |by intros [=]].
  intros Hrun. exists id.
  destruct (session_model request) as [m|] eqn:Hsm.
  - destruct (get_or_cases db m id (mret None))
      as [[_ Hg]|[(r & Hsel & Hg)|(r & r' & rows & _ & Hg)]];
      rewrite Hg in Hrun; try by injection Hrun.
    injection Hrun as _ <-. apply select_pk_singleton in Hsel as [Hin Hpk].
    exists r. repeat split; try done.
    intros sess tag m' -> Htag Hm'.
    rewrite (session_model_tagged _ _ _ Htag Hm') in Hsm. by injection Hsm.
  - apply get_user_fallback_Some in Hrun as (m & r & _ & Hin & Hpk & ->).
    exists r. repeat split; try done.
    intros sess tag m' -> Htag Hm'.
    by rewrite (session_model_tagged _ _ _ Htag Hm') in Hsm.
Qed.

Lemma get_user_sound_witness :
  ∃ id r,
    @py_int Sample.cpython (PyStr "2") = mret id ∧ r ∈ objects Sample.school Staff ∧ pk r = id
    ∧ from_db Staff Sample.teacher = from_db Staff r
    ∧ ∀ sess tag m,
        Sample.tagged "staff" = Some {| session := Some sess |} →
        sess !! "_auth_user_model" = Some tag →
        _USER_MODEL_MAP !! tag = Some m →
        Staff = m.
Proof.
  apply (get_user_sound (H := Sample.cpython) Sample.school (Sample.tagged "staff") (PyStr "2")
           [QGet Staff Fpk (PyInt 2)] (from_db Staff Sample.teacher)).
  by vm_compute.
Defined.



(** ** The queries of [get_user] *)

Lemma get_user_fallback_log (db : Database) (order : list Model) (id : Z) :
  order ≠ [] →
  ∃ ms, ms ≠ [] ∧ ms `prefix_of` order
        ∧ (get_user_fallback db order id).1 = (λ m, QGet m Fpk (PyInt id)) <$> ms.
Proof.
  induction order as [|m order IH]; intros Hne; [done|].
  cbn [get_user_fallback].
  destruct (get_or_cases db m id (get_user_fallback db order id))
    as [[_ ->]|[(r & _ & ->)|(r & r' & rows & _ & ->)]].
  - destruct order as [|m' order'].
    + exists [m]. by cbn.
    + destruct IH as (ms & Hms & Hpre & Hlog); [done|].
      exists (m :: ms). split; [done|]. split; [by apply prefix_cons|].
      destruct (get_user_fallback db (m' :: order') id) as [l res].
      cbn in *. by rewrite Hlog.
  - exists [m]. split; [done|]. split; [|done]. by exists order.
  - exists [m]. split; [done|]. split; [|done]. by exists order.
Qed.

(** X6: however the call ends, the queries of [get_user] are primary-key
    lookups for the number the argument parses to, on distinct tables: the
    one table the session names when it names one, and otherwise a
    beginning of Student, Parent, Staff, User (so at most four). *)
Theorem get_user_queries `{Interpreter}
    (db : Database) (request : option Request) (raw : PyVal) (id : Z) :
  py_int raw = mret id →
  ∃ ms : list Model,
    (get_user db request raw).1 = (λ m, QGet m Fpk (PyInt id)) <$> ms
    ∧ (1 ≤ length ms ≤ 4)%nat
    ∧ match session_model request with
      | Some m => ms = [m]
      | None => ms `prefix_of` [Student; Parent; Staff; User]
      end.
Proof.
  intros Hid. rewrite (get_user_parsed _ _ _ _ Hid).
  destruct (session_model request) as [m|].
  - exists [m]. split; [|split; [cbn; lia|done]].
    by destruct (get_or_cases db m id (mret None))
      as [[_ ->]|[(r & _ & ->)|(r & r' & rows & _ & ->)]].
  - destruct (get_user_fallback_log db _GET_USER_ORDER id) as (ms & Hne & Hpre & Hlog);
      [done|].
    exists ms. split; [done|]. split; [|done].
    pose proof (prefix_length _ _ Hpre) as Hlen.
    unfold _GET_USER_ORDER in Hlen. cbn in Hlen.
    destruct ms; [done|cbn in *; lia].
Qed.

Lemma get_user_queries_witness :
  ∃ ms : list Model,
    (@get_user Sample.cpython Sample.school None (PyStr "2")).1 = (λ m, QGet m Fpk (PyInt 2)) <$> ms
    ∧ (1 ≤ length ms ≤ 4)%nat
    ∧ ms `prefix_of` [Student; Parent; Staff; User].
Proof.
  apply (get_user_queries (H := Sample.cpython) Sample.school None (PyStr "2") 2). by vm_compute.
Defined.

(** ** Sessions without a usable label *)

(** X7: a session whose label is missing, empty or unknown is treated
    exactly like no session and like no request at all: same queries, same
    answer. *)
Theorem get_user_legacy_session `{Interpreter}
    (db : Database) (request : option Request) (raw : PyVal) :
  unrecognized request →
  get_user db request raw = get_user db None raw.
Proof.
  intros Hun. unfold get_user.
  by rewrite (session_model_unrecognized _ Hun).
Qed.

Lemma get_user_legacy_session_witness :
  @get_user Sample.cpython Sample.school (Sample.tagged "teacher") (PyInt 1)
    = @get_user Sample.cpython Sample.school None (PyInt 1)
  ∧ @get_user Sample.cpython Sample.school (Sample.tagged "") (PyInt 1)
    = @get_user Sample.cpython Sample.school None (PyInt 1).
Proof.
  split; apply get_user_legacy_session;
    intros req sess tag Hreq Hsess Htag;
    injection Hreq as <-; cbn in Hsess; injection Hsess as <-;
    vm_compute in Htag; injection Htag as <-; by_compute.
Defined.

(** ** Logging in, then resolving the session *)

Lemma _USER_MODEL_MAP_onto (m : Model) : ∃ tag, _USER_MODEL_MAP !! tag = Some m.
Proof.
  destruct m; [exists "user"|exists "staff"|exists "parent"|exists "student"];
    by vm_compute.
Qed.

(** X8: every model has a label in [_USER_MODEL_MAP], and a session that
    carries the label of the model of the instance [authenticate] returned
    gives that same instance back from [get_user] on the instance's primary
    key, with the single query on that model's table (the primary key being
    unique there). *)
Theorem authenticate_then_get_user `{Interpreter}
    (db : Database) (username password : option string)
    (log : list Query) (i : Instance) (sess : gmap string string) (tag : string)
    (raw : PyVal) :
  (∀ m, ∃ t, _USER_MODEL_MAP !! t = Some m)
  ∧ (authenticate db username password = (log, Return (Some i)) →
     NoDup (pk <$> objects db (cls i)) →
     sess !! "_auth_user_model" = Some tag →
     _USER_MODEL_MAP !! tag = Some (cls i) →
     py_int raw = mret (pk (fields i)) →
     get_user db (Some {| session := Some sess |}) raw
       = ([QGet (cls i) Fpk (PyInt (pk (fields i)))], Return (Some i))).
Proof.
  split; [apply _USER_MODEL_MAP_onto|].
  intros Hauth Hnd Htag Hm Hid.
  destruct username as [u|], password as [pw|]; try by injection Hauth.
  apply authenticate_credentials in Hauth as (r & Hin & Hi & _).
  rewrite (get_user_parsed _ _ _ _ Hid), (session_model_tagged _ _ _ Htag Hm).
  assert (Hpk : pk (fields i) = pk r) by (by rewrite Hi).
  rewrite Hpk, get_or_found by done. by rewrite <- Hi.
Qed.

Lemma authenticate_then_get_user_witness :
  @get_user Sample.cpython Sample.school (Sample.tagged "staff") (PyStr "2")
    = ([QGet Staff Fpk (PyInt 2)], Return (Some (from_db Staff Sample.teacher))).
Proof.
  apply (proj2 (authenticate_then_get_user (H := Sample.cpython) Sample.school
                  (Some "5550002") (Some "t34ch")
                  [QGet User Femail (PyStr "5550002");
                   QFilterFirst Staff Fphone (PyStr "5550002")]
                  (from_db Staff Sample.teacher)
                  {[ "_auth_user_model" := "staff" ]} "staff" (PyStr "2"))).
  - by vm_compute.
  - by_compute.
  - by vm_compute.
  - by vm_compute.
  - by vm_compute.
Defined.

Lemma get_user_fallback_finds (db : Database) (order : list Model) (id : Z) :
  (∀ m, NoDup (pk <$> objects db m)) →
  (∃ m r, m ∈ order ∧ r ∈ objects db m ∧ pk r = id) →
  ∃ log j, get_user_fallback db order id = (log, Return (Some j)) ∧ pk (fields j) = id.
Proof.
  intros Hnd. induction order as [|m order IH]; intros (m' & r & Hm' & Hin & Hpk).
  - by apply elem_of_nil in Hm'.
  - cbn [get_user_fallback].
    destruct (get_or_cases db m id (get_user_fallback db order id))
      as [[Hsel ->]|[(r0 & Hsel & ->)|(r0 & r1 & rows & Hsel & _)]].
    + apply elem_of_cons in Hm' as [->|Hm'].
      * assert (Hr : r ∈ select db m Fpk (PyInt id))
          by (apply elem_of_select; split; [done|]; cbn; by rewrite Hpk).
        rewrite Hsel in Hr. by apply elem_of_nil in Hr.
      * destruct IH as (l & j & -> & Hj); [by exists m', r|]. by eexists _, j.
    + apply select_pk_singleton in Hsel as [_ Hpk0]. by eexists _, _.
    + destruct (select_pk_two _ _ _ _ _ _ Hsel (Hnd m)).
Qed.

(** X9: dropping the label never loses the record, it can only change
    whose it is. With unique primary keys, if [get_user] finds a record
    under some request, then without a request (or with a session lacking a
    usable label) it finds a record with the same primary key, possibly from
    another table. *)
Theorem get_user_untagged_finds `{Interpreter} (db : Database) (request request' : option Request)
    (raw : PyVal) (log : list Query) (i : Instance) :
  (∀ m, NoDup (pk <$> objects db m)) →
  get_user db request raw = (log, Return (Some i)) →
  unrecognized request' →
  ∃ log' j, get_user db request' raw = (log', Return (Some j))
            ∧ pk (fields j) = pk (fields i).
Proof.
  intros Hnd Hrun Hun.
  destruct (get_user_cases db request raw)
    as [Hnone|[(id & Hid & Hrest)|(e & _ & _ & _ & _ & Hexn)]];
    [by rewrite Hnone in Hrun| |by rewrite Hexn in Hrun].
  rewrite Hrest in Hrun.
  assert (Hrow : ∃ m r, m ∈ _GET_USER_ORDER ∧ r ∈ objects db m ∧ pk r = id
                        ∧ pk (fields i) = id).
  { destruct (session_model request) as [m|].
    - destruct (get_or_cases db m id (mret None))
        as [[_ Hg]|[(r & Hsel & Hg)|(r & r' & rows & _ & Hg)]];
        rewrite Hg in Hrun; try by injection Hrun.
      injection Hrun as _ <-. apply select_pk_singleton in Hsel as [Hin Hpk].
      exists m, r. split; [|done].
      unfold _GET_USER_ORDER. destruct m; rewrite !elem_of_cons; auto.
    - apply get_user_fallback_Some in Hrun as (m & r & Hm & Hin & Hpk & ->).
      by exists m, r. }
  destruct Hrow as (m & r & Hm & Hin & Hpk & ->).
  rewrite (get_user_parsed _ _ _ _ Hid), (session_model_unrecognized _ Hun).
  apply get_user_fallback_finds; [done|]. by exists m, r.
Qed.

Lemma get_user_untagged_finds_witness :
  ∃ log' j, @get_user Sample.cpython Sample.school None (PyInt 2) = (log', Return (Some j))
            ∧ pk (fields j) = pk (fields (from_db Staff Sample.teacher)).
Proof.
  apply (get_user_untagged_finds (H := Sample.cpython)
        Sample.school (Sample.tagged "staff") None (PyInt 2)
           [QGet Staff Fpk (PyInt 2)]).
  - intros []; by_compute.
  - by vm_compute.
  - intros req sess tag Hreq. discriminate Hreq.
Defined.

(** ** Permission strings *)

Lemma dotless_cons (c : ascii) (s : string) :
  dotless (String c s) ↔ c ≠ "."%char ∧ dotless s.
Proof.
  unfold dotless. cbn. rewrite not_elem_of_cons. split; intros [? ?]; split; auto.
Qed.

Lemma perm_string_inj_aux (ct ct' name name' : string) :
  dotless ct → dotless ct' →
  ct +:+ "." +:+ name = ct' +:+ "." +:+ name' → ct = ct' ∧ name = name'.
Proof.
  revert ct'. induction ct as [|c ct IH]; intros [|c' ct'] Hd Hd'; simpl; intros Heq.
  - by simplify_eq.
  - apply dotless_cons in Hd' as [Hc' _]. by simplify_eq.
  - apply dotless_cons in Hd as [Hc _]. by simplify_eq.
  - apply dotless_cons in Hd as [_ Hd]. apply dotless_cons in Hd' as [_ Hd'].
    injection Heq as -> Hrest. destruct (IH ct' Hd Hd' Hrest) as [-> ->]. done.
Qed.

(** X10: the string built for a granted permission determines the pair it
    was built from whenever the app labels contain no dot, so a check for
    [app.codename] is answered by that pair only. With a dot in a label two
    different pairs can build the same string. *)
Theorem perm_string_inj (ct ct' name name' : string) :
  (dotless ct → dotless ct' →
   perm_string (ct, name) = perm_string (ct', name') → ct = ct' ∧ name = name')
  ∧ perm_string ("a.b", "c") = perm_string ("a", "b.c").
Proof. split; [apply perm_string_inj_aux|done]. Qed.

Lemma perm_string_inj_witness :
  "app" = "app" ∧ "view_x" = "view_x".
Proof.
  apply (proj1 (perm_string_inj "app" "app" "view_x" "view_x")).
  - unfold dotless. by_compute.
  - unfold dotless. by_compute.
  - reflexivity.
Defined.

(** ** Permission checks for staff members and students *)

Section GroupPermissionProperties.
Context `{ModelBackend}.

Lemma get_group_permissions_miss (db : Database) (i : Instance) :
  cls i = Staff ∨ cls i = Student →
  is_active (fields i) = true → is_anonymous i = false →
  _group_perm_cache i = None →
  get_group_permissions db (Obj i) PyNone
    = (perms ← (_ ← query (QGroupsAll (cls i) (pk (fields i)));
                collect_perms (groups_all db (cls i) (pk (fields i))) ∅);
       mret (perms, Obj (set_group_perm_cache i perms))).
Proof.
  intros Hcls Hact Hanon Hcache. unfold get_group_permissions.
  cbn [user_is_active user_is_anonymous is_staff_or_student].
  rewrite Hact, Hanon, Hcache. cbn [negb orb].
  rewrite bool_decide_eq_false_2 by (by intros ?).
  destruct Hcls as [-> | ->]; run;
    by destruct (collect_perms _ _) as [l [p|e]].
Qed.

Lemma get_group_permissions_first (db : Database) (i : Instance) :
  cls i = Staff ∨ cls i = Student →
  is_active (fields i) = true → is_anonymous i = false →
  _group_perm_cache i = None →
  ∃ perms : gset string,
    get_group_permissions db (Obj i) PyNone
      = (QGroupsAll (cls i) (pk (fields i))
           :: ((λ g, QPermissionsValuesList (group_pk g))
                 <$> groups_all db (cls i) (pk (fields i))),
         Return (perms, Obj (set_group_perm_cache i perms)))
    ∧ ∀ s, s ∈ perms ↔
           ∃ g ct name,
             g ∈ groups_all db (cls i) (pk (fields i))
             ∧ (ct, name) ∈ permissions g ∧ s = ct +:+ "." +:+ name.
Proof.
  intros Hcls Hact Hanon Hcache.
  destruct (collect_perms_run (groups_all db (cls i) (pk (fields i))) ∅)
    as (perms & Hrun & Hmem).
  exists perms. split.
  - rewrite get_group_permissions_miss by done. run.
    by rewrite Hrun, app_nil_r.
  - intros s. rewrite Hmem. split; [|by right].
    by intros [[]%not_elem_of_empty|?].
Qed.

Lemma get_group_permissions_hit (db : Database) (i : Instance) (cached : gset string) :
  cls i = Staff ∨ cls i = Student →
  is_active (fields i) = true → is_anonymous i = false →
  _group_perm_cache i = Some cached →
  get_group_permissions db (Obj i) PyNone = ([], Return (cached, Obj i)).
Proof.
  intros Hcls Hact Hanon Hcache. unfold get_group_permissions.
  cbn [user_is_active user_is_anonymous is_staff_or_student].
  rewrite Hact, Hanon, Hcache. cbn [negb orb].
  rewrite bool_decide_eq_false_2 by (by intros ?).
  by destruct Hcls as [-> | ->].
Qed.

Lemma has_perm_staff_or_student (db : Database) (i : Instance) (perm : string) :
  cls i = Staff ∨ cls i = Student →
  is_active (fields i) = true → is_anonymous i = false →
  has_perm db (Obj i) perm PyNone
    = ('(perms, user_obj) ← get_group_permissions db (Obj i) PyNone;
       mret (bool_decide (perm ∈ perms), user_obj)).
Proof.
  intros Hcls Hact Hanon. unfold has_perm, get_all_permissions.
  cbn [user_is_active user_is_anonymous is_staff_or_student].
  rewrite Hact, Hanon. cbn [negb orb].
  rewrite bool_decide_eq_false_2 by (by intros ?).
  by destruct Hcls as [-> | ->].
Qed.

(** X11: for an active, non-anonymous staff member or student without the
    cache attribute and no object, [has_perm] answers [True] exactly when
    one of the user's groups grants a permission whose
    [app_label.codename] is the string asked for. It issues the groups
    query and one permissions query per group, and leaves on the instance,
    as its cache, exactly the set of the strings its groups grant. *)
Theorem has_perm_first_call (db : Database) (i : Instance) (perm : string) :
  cls i = Staff ∨ cls i = Student →
  is_active (fields i) = true → is_anonymous i = false →
  _group_perm_cache i = None →
  ∃ (answer : bool) (perms : gset string),
    has_perm db (Obj i) perm PyNone
      = (QGroupsAll (cls i) (pk (fields i))
           :: ((λ g, QPermissionsValuesList (group_pk g))
                 <$> groups_all db (cls i) (pk (fields i))),
         Return (answer, Obj (set_group_perm_cache i perms)))
    ∧ (answer = true ↔
       ∃ g ct name,
         g ∈ groups_all db (cls i) (pk (fields i))
         ∧ (ct, name) ∈ permissions g ∧ perm = ct +:+ "." +:+ name)
    ∧ (∀ s, s ∈ perms ↔
            ∃ g ct name,
              g ∈ groups_all db (cls i) (pk (fields i))
              ∧ (ct, name) ∈ permissions g ∧ s = ct +:+ "." +:+ name)
    ∧ _group_perm_cache (set_group_perm_cache i perms) = Some perms
    ∧ (∀ db' perm',
         has_perm db' (Obj (set_group_perm_cache i perms)) perm' PyNone
           = ([], Return (bool_decide (perm' ∈ perms),
                          Obj (set_group_perm_cache i perms)))).
Proof.
  intros Hcls Hact Hanon Hcache.
  destruct (get_group_permissions_first db i Hcls Hact Hanon Hcache)
    as (perms & Hrun & Hmem).
  exists (bool_decide (perm ∈ perms)), perms. split; [|split; [|split; [|split]]].
  - rewrite has_perm_staff_or_student, Hrun by done. run. by rewrite app_nil_r.
  - by rewrite bool_decide_eq_true, Hmem.
  - exact Hmem.
  - done.
  - intros db' perm'.
    rewrite has_perm_staff_or_student by done.
    by rewrite (get_group_permissions_hit db' _ perms).
Qed.

(** X12: once the cache attribute is set on an active, non-anonymous staff
    member or student, [get_all_permissions] returns it and [has_perm]
    answers by membership in it, with no query and without looking at the
    database: group changes made after the first call are not seen through
    that instance. *)
Theorem has_perm_from_cache (db : Database) (i : Instance) (cached : gset string)
    (perm : string) :
  cls i = Staff ∨ cls i = Student →
  is_active (fields i) = true → is_anonymous i = false →
  _group_perm_cache i = Some cached →
  get_all_permissions db (Obj i) PyNone = ([], Return (cached, Obj i))
  ∧ has_perm db (Obj i) perm PyNone
    = ([], Return (bool_decide (perm ∈ cached), Obj i)).
Proof.
  intros Hcls Hact Hanon Hcache. split.
  - unfold get_all_permissions.
    cbn [user_is_active user_is_anonymous is_staff_or_student].
    rewrite Hact, Hanon. cbn [negb orb].
    rewrite bool_decide_eq_false_2 by (by intros ?).
    rewrite (get_group_permissions_hit db i cached) by done.
    by destruct Hcls as [-> | ->].
  - rewrite has_perm_staff_or_student by done.
    by rewrite (get_group_permissions_hit db i cached).
Qed.

(** X13: the set [get_group_permissions] computes does not depend on the
    order in which the database lists the user's groups: two databases
    listing the same groups in different orders give the same set and the
    same queries up to order. *)
Theorem get_group_permissions_group_order (db db' : Database) (i : Instance) :
  cls i = Staff ∨ cls i = Student →
  is_active (fields i) = true → is_anonymous i = false →
  _group_perm_cache i = None →
  groups_all db (cls i) (pk (fields i)) ≡ₚ groups_all db' (cls i) (pk (fields i)) →
  ∃ log log' perms,
    get_group_permissions db (Obj i) PyNone
      = (log, Return (perms, Obj (set_group_perm_cache i perms)))
    ∧ get_group_permissions db' (Obj i) PyNone
      = (log', Return (perms, Obj (set_group_perm_cache i perms)))
    ∧ log ≡ₚ log'.
Proof.
  intros Hcls Hact Hanon Hcache Hperm.
  destruct (get_group_permissions_first db i Hcls Hact Hanon Hcache)
    as (perms & Hrun & Hmem).
  destruct (get_group_permissions_first db' i Hcls Hact Hanon Hcache)
    as (perms' & Hrun' & Hmem').
  assert (Heq : perms' = perms).
  { apply set_eq. intros s. rewrite Hmem, Hmem'.
    split; intros (g & ct & name & Hg & Hrest); exists g, ct, name;
      (split; [|done]); first [by rewrite <- Hperm | by rewrite Hperm]. }
  subst perms'. eexists _, _, perms. split; [exact Hrun|]. split; [exact Hrun'|].
  constructor. by apply fmap_Permutation.
Qed.

(** X14: on a staff member or a student, whatever the flags, the cache and
    the object argument, [get_group_permissions] ends with a value, issues
    group queries only (never a lookup in an identity table), and returns
    the instance with its class, its row and its anonymity unchanged; an
    instance that already has the cache attribute is returned as it is. *)
Theorem get_group_permissions_frame (db : Database) (i : Instance) (obj : PyVal) :
  cls i = Staff ∨ cls i = Student →
  ∃ log perms i',
    get_group_permissions db (Obj i) obj = (log, Return (perms, Obj i'))
    ∧ Forall is_group_query log
    ∧ cls i' = cls i ∧ fields i' = fields i ∧ is_anonymous i' = is_anonymous i
    ∧ (∀ cached, _group_perm_cache i = Some cached → i' = i).
Proof.
  intros Hcls. unfold get_group_permissions.
  destruct (negb (user_is_active (Obj i)) || user_is_anonymous (Obj i)
            || bool_decide (obj ≠ PyNone)).
  - exists [], ∅, i. by repeat split.
  - assert (Hkind : is_staff_or_student (Obj i) = true)
      by (cbn; by destruct Hcls as [-> | ->]).
    rewrite Hkind. destruct (_group_perm_cache i) as [cached|] eqn:Hcache.
    + exists [], cached, i. by repeat split.
    + destruct (collect_perms_run (groups_all db (cls i) (pk (fields i))) ∅)
        as (perms & Hrun & _).
      eexists _, perms, (set_group_perm_cache i perms). split.
      * run. rewrite Hrun, app_nil_r. done.
      * repeat split; try done.
        constructor; [done|]. apply Forall_fmap, Forall_true. done.
Qed.

(** X15: for an active, non-anonymous user that is neither a staff member
    nor a student (an administrator or a parent) and no object, the module
    adds nothing to the inherited behaviour: the two set-valued methods are
    the inherited ones, and [has_perm] is membership in what the inherited
    [get_all_permissions] returns. *)
Theorem permissions_delegated (db : Database) (user_obj : UserObj) (perm : string) :
  is_staff_or_student user_obj = false →
  user_is_active user_obj = true → user_is_anonymous user_obj = false →
  get_group_permissions db user_obj PyNone
    = super_get_group_permissions db user_obj PyNone
  ∧ get_all_permissions db user_obj PyNone
    = super_get_all_permissions db user_obj PyNone
  ∧ has_perm db user_obj perm PyNone
    = ('(perms, user_obj) ← super_get_all_permissions db user_obj PyNone;
       mret (bool_decide (perm ∈ perms), user_obj)).
Proof.
  intros Hkind Hact Hanon.
  assert (Hall : get_all_permissions db user_obj PyNone
                 = super_get_all_permissions db user_obj PyNone).
  { unfold get_all_permissions. rewrite Hact, Hanon, Hkind. cbn [negb orb].
    by rewrite bool_decide_eq_false_2 by (by intros ?). }
  split; [|split; [done|]].
  - unfold get_group_permissions. rewrite Hact, Hanon. cbn [negb orb].
    rewrite bool_decide_eq_false_2 by (by intros ?).
    destruct user_obj as [|i]; [done|]. by rewrite Hkind.
  - unfold has_perm, ModelBackend_has_perm. rewrite Hact, Hkind. cbn [negb].
    by rewrite Hall.
Qed.

End GroupPermissionProperties.

Lemma has_perm_first_call_witness :
  let pupil := from_db Student Sample.pupil in
  ∃ (answer : bool) (perms : gset string),
    @has_perm Sample.django Sample.school (Obj pupil) "app.edit_y" PyNone
      = ([QGroupsAll Student 1; QPermissionsValuesList 1; QPermissionsValuesList 2],
         Return (answer, Obj (set_group_perm_cache pupil perms)))
    ∧ (answer = true ↔
       ∃ g ct name,
         g ∈ [Sample.G1; Sample.G2]
         ∧ (ct, name) ∈ permissions g ∧ "app.edit_y" = ct +:+ "." +:+ name)
    ∧ (∀ s, s ∈ perms ↔
            ∃ g ct name,
              g ∈ [Sample.G1; Sample.G2]
              ∧ (ct, name) ∈ permissions g ∧ s = ct +:+ "." +:+ name)
    ∧ _group_perm_cache (set_group_perm_cache pupil perms) = Some perms
    ∧ (∀ db' perm',
         @has_perm Sample.django db' (Obj (set_group_perm_cache pupil perms)) perm' PyNone
           = ([], Return (bool_decide (perm' ∈ perms),
                          Obj (set_group_perm_cache pupil perms)))).
Proof.
  apply (@has_perm_first_call Sample.django Sample.school
           (from_db Student Sample.pupil) "app.edit_y"); [by right|done|done|done].
Defined.

Lemma has_perm_from_cache_witness :
  let cached : gset string := {[ "app.view_x" ]} in
  let pupil := set_group_perm_cache (from_db Student Sample.pupil) cached in
  @get_all_permissions Sample.django Sample.school (Obj pupil) PyNone
    = ([], Return (cached, Obj pupil))
  ∧ @has_perm Sample.django Sample.school (Obj pupil) "app.edit_y" PyNone
    = ([], Return (bool_decide ("app.edit_y" ∈ cached), Obj pupil)).
Proof.
  intros cached pupil.
  apply (@has_perm_from_cache Sample.django Sample.school pupil cached "app.edit_y");
    [by right|done|done|done].
Defined.

Lemma get_group_permissions_group_order_witness :
  let pupil := from_db Student Sample.pupil in
  ∃ log log' perms,
    @get_group_permissions Sample.django Sample.school (Obj pupil) PyNone
      = (log, Return (perms, Obj (set_group_perm_cache pupil perms)))
    ∧ @get_group_permissions Sample.django school_regrouped (Obj pupil) PyNone
      = (log', Return (perms, Obj (set_group_perm_cache pupil perms)))
    ∧ log ≡ₚ log'.
Proof.
  apply (@get_group_permissions_group_order Sample.django Sample.school school_regrouped
           (from_db Student Sample.pupil)); [by right|done|done|done|].
  cbn. apply Permutation_swap.
Defined.

Lemma get_group_permissions_frame_witness :
  let pupil := from_db Student Sample.pupil in
  ∃ log perms i',
    @get_group_permissions Sample.django Sample.school (Obj pupil) PyNone
      = (log, Return (perms, Obj i'))
    ∧ Forall is_group_query log
    ∧ cls i' = Student ∧ fields i' = Sample.pupil ∧ is_anonymous i' = false
    ∧ (∀ cached, _group_perm_cache pupil = Some cached → i' = pupil).
Proof.
  apply (@get_group_permissions_frame Sample.django Sample.school
           (from_db Student Sample.pupil) PyNone).
  by right.
Defined.

Lemma permissions_delegated_witness :
  let root := Obj (from_db User Sample.root) in
  @get_group_permissions Sample.django Sample.school root PyNone
    = @super_get_group_permissions Sample.django Sample.school root PyNone
  ∧ @get_all_permissions Sample.django Sample.school root PyNone
    = @super_get_all_permissions Sample.django Sample.school root PyNone
  ∧ @has_perm Sample.django Sample.school root "app.view_x" PyNone
    = ('(perms, user_obj) ← @super_get_all_permissions Sample.django Sample.school
                              root PyNone;
       mret (bool_decide ("app.view_x" ∈ perms), user_obj)).
Proof.
  apply (@permissions_delegated Sample.django Sample.school
           (Obj (from_db User Sample.root)) "app.view_x"); done.
Defined.

(** ** Rejected credentials *)

Lemma probe_outcome_rejected (db : Database) (p : Model * Field)
    (username password : string) :
  p ∈ probes →
  (length (select db User Femail (PyStr username)) ≤ 1)%nat →
  (∀ m r, r ∈ objects db m →
          email r = Some username ∨ phone r = Some username →
          check_password r password = false) →
  fails (probe_outcome db p username password).
Proof.
  intros Hp Hone Hrej.
  assert (Hhead : ∀ m f r rows, f ≠ Fpk →
            select db m f (PyStr username) = r :: rows →
            check_password r password = false).
  { intros m f r rows Hf Hsel.
    assert (Hin : r ∈ select db m f (PyStr username)) by (rewrite Hsel; by left).
    apply elem_of_select in Hin as [Hin Hcol]. apply column_str in Hcol.
    apply (Hrej m r Hin). destruct f; [done|by left|by right]. }
  unfold probe_outcome, verify.
  destruct (probes_inv p Hp) as [->|Hne]; cbn [fst snd].
  - destruct (select db User Femail (PyStr username)) as [|r [|r' rows]] eqn:Hsel;
      [done| |cbn in Hone; lia].
    by rewrite (Hhead User Femail r [] ltac:(done) Hsel).
  - assert (Hf : p.2 ≠ Fpk).
    { unfold probes in Hp. rewrite !elem_of_cons, elem_of_nil in Hp.
      by destruct Hp as [->|[->|[->|[->|[->|[->|[]]]]]]]. }
    destruct p as [m f]. cbn [fst snd] in *.
    destruct (select db m f (PyStr username)) as [|r rows] eqn:Hsel;
      [by destruct m|].
    rewrite (Hhead m f r rows Hf Hsel). by destruct m.
Qed.

(** X16: when every record that carries the identifier as its email or its
    phone rejects the secret (in particular when no record carries it), and
    at most one administrator has it as email, [authenticate] answers [None]
    after all six lookups: a rejected login always costs the same six
    queries, whether the identifier is known or not. *)
Theorem authenticate_rejected (db : Database) (username password : string) :
  (length (select db User Femail (PyStr username)) ≤ 1)%nat →
  (∀ m r, r ∈ objects db m →
          email r = Some username ∨ phone r = Some username →
          check_password r password = false) →
  authenticate db (Some username) (Some password)
    = ([QGet User Femail (PyStr username);
        QFilterFirst Staff Fphone (PyStr username);
        QFilterFirst Staff Femail (PyStr username);
        QFilterFirst Parent Fphone (PyStr username);
        QFilterFirst Student Fphone (PyStr username);
        QFilterFirst Student Femail (PyStr username)], Return None).
Proof.
  intros Hone Hrej. rewrite authenticate_search.
  rewrite search_exhausted; [done|done|].
  intros q Hq. by apply probe_outcome_rejected.
Qed.

Lemma authenticate_rejected_witness :
  authenticate Sample.school (Some "nobody@school.org") (Some "r00t")
    = ([QGet User Femail (PyStr "nobody@school.org");
        QFilterFirst Staff Fphone (PyStr "nobody@school.org");
        QFilterFirst Staff Femail (PyStr "nobody@school.org");
        QFilterFirst Parent Fphone (PyStr "nobody@school.org");
        QFilterFirst Student Fphone (PyStr "nobody@school.org");
        QFilterFirst Student Femail (PyStr "nobody@school.org")], Return None).
Proof.
  apply (authenticate_rejected Sample.school "nobody@school.org" "r00t").
  - vm_compute. lia.
  - intros m r Hr Hid. exfalso. destruct m; cbn in Hr;
      repeat (apply elem_of_cons in Hr as [->|Hr];
              [by destruct Hid as [Hid|Hid]; vm_compute in Hid|]);
      by apply elem_of_nil in Hr.
Defined.
